(** * The [win_updates] action plugin: reboot-aware update loop

    A shallow embedding of [lib/ansible/plugins/action/win_updates.py]
    (class [ActionModule]) and the properties of its loop.

    The plugin runs the [win_updates] module on the managed host, and,
    when asked to, reboots the host and runs the module again until the
    module reports nothing left to do.  Everything the plugin calls on the
    host is outside the file: here the answers of the module and of the
    [win_reboot], [win_shell] and [wait_for_connection] plugins are
    scripted, and every call is written to a trace. *)

From Stdlib Require Import ZArith Ascii.
From stdpp Require Import gmap strings list fin_maps.

Set Default Proof Using "Type".

(** ** Python values *)

(** The values found in the fields the plugin reads: the module's result
    arrives as JSON.  The metadata of one update is never inspected by
    the plugin and is kept as opaque text. *)
Inductive pyval : Type :=
| VNone
| VBool (b : bool)
| VInt (z : Z)
| VStr (s : string)
| VDict (d : gmap string string).

#[global] Instance pyval_eq_dec : EqDecision pyval.
Proof. solve_decision. Defined.

#[global] Instance pyval_inhabited : Inhabited pyval := populate VNone.

(** A result dictionary, as returned by [_execute_module]. *)
Abbreviation pydict := (gmap string pyval).

(** The exceptions that can cross the plugin.  [Interrupt] stands for the
    exceptions that are not subclasses of [Exception] ([KeyboardInterrupt],
    [SystemExit]). *)
Inductive exn : Type :=
| KeyError (key : string)
| TypeError
| ValueError
| AttributeError
| AnsibleError (message : string)
| OtherError (message : string)
| Interrupt.

#[global] Instance exn_eq_dec : EqDecision exn.
Proof. solve_decision. Defined.

(** [isinstance(e, Exception)] *)
Definition is_Exception (e : exn) : bool :=
  match e with Interrupt => false | _ => true end.

(** [isinstance(e, AnsibleError)] *)
Definition is_AnsibleError (e : exn) : option string :=
  match e with AnsibleError m => Some m | _ => None end.

(** Truth value of an object, as [if v:] takes it. *)
Definition truthy (v : pyval) : bool :=
  match v with
  | VNone => false
  | VBool b => b
  | VInt z => negb (z =? 0)%Z
  | VStr s => negb (String.eqb s "")
  | VDict d => negb (bool_decide (d = ∅))
  end.

(** [v is True] *)
Definition is_True (v : pyval) : bool :=
  match v with VBool true => true | _ => false end.

(** [v == s] for a text literal [s] *)
Definition eq_text (v : pyval) (s : string) : bool :=
  match v with VStr t => String.eqb t s | _ => false end.

(** [d.get(k, dflt)] *)
Definition py_get (d : pydict) (k : string) (dflt : pyval) : pyval :=
  default dflt (d !! k).

(** The integer an [int] or [bool] object stands for in arithmetic. *)
Definition as_int (v : pyval) : option Z :=
  match v with
  | VInt z => Some z
  | VBool b => Some (if b then 1 else 0)%Z
  | _ => None
  end.

(** ** The play context *)

(** [self._play_context]: the three elevation fields [_reboot_server]
    switches, [check_mode] which [run] reads, and the remaining
    attributes, which the plugin never touches. *)
Record play_context : Type := PlayContext {
  become : option bool;
  become_method : option string;
  become_user : option string;
  check_mode : bool;
  other_attributes : gmap string pyval;
}.

#[global] Instance play_context_eq_dec : EqDecision play_context.
Proof. solve_decision. Defined.

Definition set_become (v : option bool) (pc : play_context) : play_context :=
  PlayContext v (become_method pc) (become_user pc) (check_mode pc)
              (other_attributes pc).

Definition set_become_method (v : option string) (pc : play_context)
  : play_context :=
  PlayContext (become pc) v (become_user pc) (check_mode pc)
              (other_attributes pc).

Definition set_become_user (v : option string) (pc : play_context)
  : play_context :=
  PlayContext (become pc) (become_method pc) v (check_mode pc)
              (other_attributes pc).

(** ** The environment *)

(** What an action plugin ([win_reboot], [wait_for_connection]) answers:
    the two keys of its result the caller reads. *)
Record plugin_result : Type := PluginResult {
  pr_failed : option bool;
  pr_msg : option string;
}.

#[global] Instance plugin_result_eq_dec : EqDecision plugin_result.
Proof. solve_decision. Defined.

(** How the [win_shell] call of the busy probe ends. *)
Inductive probe_outcome : Type :=
| ProbeReturned (shell_result : pydict)
| ProbeRaised (e : exn).

#[global] Instance probe_outcome_eq_dec : EqDecision probe_outcome.
Proof. solve_decision. Defined.

(** What the host does on one call of [_reboot_server]. *)
Record reboot_env : Type := RebootEnv {
  reboot_answer : plugin_result;
  probe_answer : probe_outcome;
  wait_answer : plugin_result;
}.

(** The calls the plugin makes, in order. *)
Inductive event : Type :=
| EvCycle (response : pydict)
| EvReboot (reboot_timeout : pyval) (answer : plugin_result)
| EvProbe (context : play_context) (answer : probe_outcome)
| EvWait (answer : plugin_result).

#[global] Instance event_eq_dec : EqDecision event.
Proof. solve_decision. Defined.

(** The state of the world around the plugin: the play context, what the
    host will do on its n-th reboot, how many reboots were made, and the
    calls made so far. *)
Record world : Type := World {
  context : play_context;
  reboot_script : nat → reboot_env;
  reboot_count : nat;
  trace : list event;
}.

(** ** A state and exception monad *)

Inductive outcome (A : Type) : Type :=
| Ok (a : A)
| Raise (e : exn)
| Stuck.
Arguments Ok {A} a.
Arguments Raise {A} e.
Arguments Stuck {A}.

#[global] Instance outcome_eq_dec {A} `{EqDecision A} : EqDecision (outcome A).
Proof. solve_decision. Defined.

#[global] Instance outcome_ret : MRet outcome := @Ok.
#[global] Instance outcome_bind : MBind outcome := λ A B k o,
  match o with
  | Ok a => k a
  | Raise e => Raise e
  | Stuck => Stuck
  end.

(** Computations that call the host: they read and change the world. *)
Definition M (A : Type) : Type := world → outcome A * world.

(** A computation that does not touch the world. *)
Definition lift {A} (o : outcome A) : M A := λ w, (o, w).

Definition ret {A} (a : A) : M A := λ w, (Ok a, w).
Definition raise {A} (e : exn) : M A := λ w, (Raise e, w).
Definition stuck {A} : M A := λ w, (Stuck, w).

Definition bind {A B} (m : M A) (k : A → M B) : M B :=
  λ w, match m w with
       | (Ok a, w') => k a w'
       | (Raise e, w') => (Raise e, w')
       | (Stuck, w') => (Stuck, w')
       end.

#[global] Instance M_ret : MRet M := @ret.
#[global] Instance M_bind : MBind M := λ A B k m, bind m k.

(** [try: body  finally: fin] *)
Definition try_finally {A} (body : M A) (fin : M unit) : M A :=
  λ w, match body w with
       | (Stuck, w') => (Stuck, w')
       | (o, w') =>
           match fin w' with
           | (Ok _, w'') => (o, w'')
           | (Raise e, w'') => (Raise e, w'')
           | (Stuck, w'') => (Stuck, w'')
           end
       end.

(** [try: body  except <class> as exc: handler(exc)], the class given by
    the test [catches]. *)
Definition try_except {A E} (body : M A) (catches : exn → option E)
    (handler : E → M A) : M A :=
  λ w, match body w with
       | (Raise e, w') =>
           match catches e with
           | Some x => handler x w'
           | None => (Raise e, w')
           end
       | r => r
       end.

Definition get_context : M play_context := λ w, (Ok (context w), w).

Definition modify_context (f : play_context → play_context) : M unit :=
  λ w, (Ok tt, World (f (context w)) (reboot_script w) (reboot_count w)
                     (trace w)).

Definition emit (e : event) : M unit :=
  λ w, (Ok tt, World (context w) (reboot_script w) (reboot_count w)
                     (trace w ++ [e])).

(** The host's behaviour on the next reboot. *)
Definition next_reboot : M reboot_env :=
  λ w, (Ok (reboot_script w (reboot_count w)),
        World (context w) (reboot_script w) (S (reboot_count w)) (trace w)).

(** [d[k]] *)
Definition py_index (d : pydict) (k : string) : outcome pyval :=
  match d !! k with
  | Some v => Ok v
  | None => Raise (KeyError k)
  end.

(** [v > 0]: defined between numbers; Python 3 raises [TypeError] for
    the other kinds. *)
Definition py_gt0 (v : pyval) : outcome bool :=
  match as_int v with
  | Some z => Ok (0 <? z)%Z
  | None => Raise TypeError
  end.

(** [a + b], as [a += b] computes it. *)
Definition py_add (a b : pyval) : outcome pyval :=
  match as_int a, as_int b with
  | Some x, Some y => Ok (VInt (x + y))
  | _, _ =>
      match a, b with
      | VStr s, VStr t => Ok (VStr (s +:+ t))
      | _, _ => Raise TypeError
      end
  end.

(** ** [ActionModule] *)

Definition DEFAULT_REBOOT_TIMEOUT : Z := 1200.

Definition valid_categories : list string :=
  [ "Application"; "Connectors"; "CriticalUpdates"; "DefinitionUpdates";
    "DeveloperKits"; "FeaturePacks"; "Guidance"; "SecurityUpdates";
    "ServicePacks"; "Tools"; "UpdateRollups"; "Updates" ].

(** [_validate_categories]: the first name that is not a known category
    raises. *)
Fixpoint _validate_categories (category_names : list string)
  : outcome unit :=
  match category_names with
  | [] => Ok tt
  | name :: rest =>
      if bool_decide (name ∈ valid_categories)
      then _validate_categories rest
      else Raise (AnsibleError
                    ("Unknown category_name " +:+ name +:+
                     ", must be one of (" +:+
                     String.concat "," valid_categories +:+ ")"))
  end.

(** [_run_win_updates]: one run of the module on the host, which answers
    [response]. *)
Definition _run_win_updates (response : pydict) : M pydict :=
  emit (EvCycle response);;
  mret response.

(** [_run_action_plugin] for a plugin that answers [answer]: the caller
    reads [answer.get('failed', False)] and [answer['msg']]. *)
Definition failed_msg (answer : plugin_result) : outcome unit :=
  if default false (pr_failed answer)
  then match pr_msg answer with
       | Some m => Raise (AnsibleError m)
       | None => Raise (KeyError "msg")
       end
  else Ok tt.

(** The [win_shell] call of the busy probe: it runs under whatever
    context is current when it is made. *)
Definition execute_win_shell (answer : probe_outcome) : M pydict :=
  pc ← get_context;
  emit (EvProbe pc answer);;
  match answer with
  | ProbeReturned shell_result => mret shell_result
  | ProbeRaised e => raise e
  end.

(** Lines 75-96 of [_reboot_server]: the busy probe under elevation. *)
Definition busy_probe (answer : probe_outcome) : M unit :=
  pc ← get_context;
  let orig_become := become pc in
  let orig_become_method := become_method pc in
  let orig_become_user := become_user pc in
  (if bool_decide (orig_become = None) || bool_decide (orig_become = Some false)
   then modify_context (set_become (Some true)) else mret tt);;
  (if negb (bool_decide (orig_become_method = Some "runas"))
   then modify_context (set_become_method (Some "runas")) else mret tt);;
  (* [orig_become_user is None or 'root']: the right operand is a
     non-empty text literal *)
  (if bool_decide (orig_become_user = None) || truthy (VStr "root")
   then modify_context (set_become_user (Some "SYSTEM")) else mret tt);;
  try_finally
    (try_except
       (execute_win_shell answer;; mret tt)
       (λ e, if is_Exception e then Some e else None)
       (λ _, mret tt))
    (modify_context (set_become orig_become);;
     modify_context (set_become_method orig_become_method);;
     modify_context (set_become_user orig_become_user)).

(** [_reboot_server] *)
Definition _reboot_server (reboot_timeout : pyval) : M unit :=
  env ← next_reboot;
  emit (EvReboot reboot_timeout (reboot_answer env));;
  lift (failed_msg (reboot_answer env));;
  busy_probe (probe_answer env);;
  emit (EvWait (wait_answer env));;
  lift (failed_msg (wait_answer env)).

(** [dict.update(new)] on the contents [d]: a mapping is merged in, an
    empty text is an empty sequence of pairs, any other text fails on its
    first element, and the other kinds are not iterable. *)
Definition dict_update (d : gmap string string) (new : pyval)
  : outcome (gmap string string) :=
  match new with
  | VDict n => Ok (n ∪ d)
  | VStr s => if String.eqb s "" then Ok d else Raise ValueError
  | _ => Raise TypeError
  end.

(** [_merge_dict], on the contents of the two objects: the copy of
    [original], updated with [new]. *)
Definition _merge_dict (original new : pyval) : outcome pyval :=
  match original with
  | VDict o =>
      let dict_var := o in
      dict_var ← dict_update dict_var new;
      Ok (VDict dict_var)
  | _ => Raise AttributeError
  end.

(** *** The loop of [run] *)

(** The local variables of [run] that live across the loop. *)
Record loop_state : Type := LoopState {
  result : pydict;
  changed : pyval;
  updates : pyval;
  filtered_updates : pyval;
  found_update_count : pyval;
  installed_update_count : pyval;
  previously_errored : bool;
}.

Definition set_result (r : pydict) (st : loop_state) : loop_state :=
  LoopState r (changed st) (updates st) (filtered_updates st)
            (found_update_count st) (installed_update_count st)
            (previously_errored st).

Definition set_changed (c : pyval) (st : loop_state) : loop_state :=
  LoopState (result st) c (updates st) (filtered_updates st)
            (found_update_count st) (installed_update_count st)
            (previously_errored st).

Definition set_previously_errored (b : bool) (st : loop_state) : loop_state :=
  LoopState (result st) (changed st) (updates st) (filtered_updates st)
            (found_update_count st) (installed_update_count st) b.

(** How the part of an iteration before the module is run again ends. *)
Inductive control : Type :=
| Break (st : loop_state)
| Proceed (st : loop_state).

Definition reboot_sentinel : string :=
  "A reboot is required before more updates can be installed".

(** The condition of the [while] (lines 199-201). *)
Definition loop_condition (result : pydict) : outcome bool :=
  installed ← py_index result "installed_update_count";
  c1 ← py_gt0 installed;
  if (c1 : bool) then Ok true else
  found ← py_index result "found_update_count";
  c2 ← py_gt0 found;
  if (c2 : bool) then Ok true else
  reboot_required ← py_index result "reboot_required";
  Ok (is_True reboot_required).

(** Lines 214-233: the reboot, when the module asks for one. *)
Definition reboot_if_required (reboot_timeout : pyval) (st : loop_state)
  : M control :=
  let reboot_error :=
    if eq_text (py_get (result st) "msg" (VStr "")) reboot_sentinel
    then Some "reboot was required before more updates can be installed"
    else None in
  if truthy (py_get (result st) "reboot_required" (VBool false)) then
    let reboot_error :=
      match reboot_error with
      | None => "reboot was required to finalise update install"
      | Some e => e
      end in
    let st := set_changed (VBool true) st in
    try_except
      (_reboot_server reboot_timeout;; mret (Proceed st))
      is_AnsibleError
      (λ exc,
         let result := <["failed" := VBool true]> (result st) in
         let result :=
           <["msg" := VStr ("Failed to reboot remote host when " +:+
                            reboot_error +:+ ": " +:+ exc)]> result in
         mret (Break (set_result result st)))
  else mret (Proceed st).

(** Lines 205-233: the check for a repeated failure, then the reboot. *)
Definition check_and_reboot (reboot_timeout : pyval) (st : loop_state)
  : M control :=
  if truthy (py_get (result st) "failed" (VBool false)) then
    if previously_errored st then mret (Break st)
    else reboot_if_required reboot_timeout (set_previously_errored true st)
  else reboot_if_required reboot_timeout (set_previously_errored false st).

(** Lines 235-247: the module is run again, it answers [response], and
    the answer is added to the running values. *)
Definition rerun_and_merge (response : pydict) (st : loop_state)
  : M loop_state :=
  let st := set_result (delete "msg" (result st)) st in
  result ← _run_win_updates response;
  let result_updates := py_get result "updates" (VDict ∅) in
  let result_filtered_updates := py_get result "filtered_updates" (VDict ∅) in
  updates ← lift (_merge_dict (updates st) result_updates);
  filtered_updates ←
    lift (_merge_dict (filtered_updates st) result_filtered_updates);
  found_update_count ←
    lift (py_add (found_update_count st)
                 (py_get result "found_update_count" (VInt 0)));
  installed_update_count ←
    lift (py_add (installed_update_count st)
                 (py_get result "installed_update_count" (VInt 0)));
  result_changed ← lift (py_index result "changed");
  let changed := if truthy result_changed then VBool true else changed st in
  mret (LoopState result changed updates filtered_updates found_update_count
                  installed_update_count (previously_errored st)).

(** The [while] loop (lines 199-247).  [responses] are the answers the
    module gives to the runs the loop makes, in order; when the loop asks
    for a run and none is left, the outcome is [Stuck]. *)
Fixpoint reboot_loop (reboot_timeout : pyval) (responses : list pydict)
    (st : loop_state) : M loop_state :=
  continue ← lift (loop_condition (result st));
  if (continue : bool) then
    ctl ← check_and_reboot reboot_timeout st;
    match ctl with
    | Break st => mret st
    | Proceed st =>
        match responses with
        | [] => stuck
        | response :: responses =>
            st ← rerun_and_merge response st;
            reboot_loop reboot_timeout responses st
        end
    end
  else mret st.

(** *** [run] *)

(** [category_names] as the task gives it: a list of names, one text of
    class [AnsibleUnicode] (as a YAML scalar is loaded), or one text of
    another class ([str], as a templated value may be). *)
Inductive category_arg : Type :=
| CategoryList (names : list string)
| CategoryText (text : string)
| CategoryStr (text : string).

(** The task: the four arguments [run] reads (absent ones are [None]),
    [self._task.async_val], and the dictionary the base class's [run]
    hands back. *)
Record task : Type := Task {
  arg_category_names : option category_arg;
  arg_state : option pyval;
  arg_reboot : option pyval;
  arg_reboot_timeout : option pyval;
  async_val : Z;
  base_result : pydict;
}.

(** [isspace()] on one character; texts are sequences of code points
    below 256. *)
Definition is_space (c : Ascii.ascii) : bool :=
  let n := Ascii.nat_of_ascii c in
  ((9 <=? n) && (n <=? 13)) || ((28 <=? n) && (n <=? 32))
  || (n =? 133) || (n =? 160).

(** [s.split(sep)] for a one-character separator *)
Fixpoint split (sep : Ascii.ascii) (s : string) : list string :=
  match s with
  | EmptyString => [EmptyString]
  | String c s' =>
      if Ascii.eqb c sep then EmptyString :: split sep s'
      else match split sep s' with
           | [] => [String c EmptyString]
           | piece :: pieces => String c piece :: pieces
           end
  end.

Fixpoint lstrip (s : string) : string :=
  match s with
  | EmptyString => EmptyString
  | String c s' => if is_space c then lstrip s' else s
  end.

Fixpoint rstrip (s : string) : string :=
  match s with
  | EmptyString => EmptyString
  | String c s' =>
      match rstrip s' with
      | EmptyString => if is_space c then EmptyString else String c EmptyString
      | t => String c t
      end
  end.

(** [s.strip()] *)
Definition strip (s : string) : string := rstrip (lstrip s).

(** What [for name in s] goes through when [s] is a text: its
    characters, each one a text of length one. *)
Definition characters (s : string) : list string :=
  (λ c, String c EmptyString) <$> String.list_ascii_of_string s.

(** Lines 139-145, and what the [for] of [_validate_categories] then
    iterates: only an [AnsibleUnicode] is split; a text of another class
    is left as it is and iterated character by character. *)
Definition category_list (a : option category_arg) : list string :=
  match a with
  | None => ["CriticalUpdates"; "SecurityUpdates"; "UpdateRollups"]
  | Some (CategoryList names) => names
  | Some (CategoryText text) => strip <$> split ","%char text
  | Some (CategoryStr text) => characters text
  end.

(** [isinstance(v, int)]; a [bool] is an [int]. *)
Definition is_int (v : pyval) : bool :=
  match v with VInt _ | VBool _ => true | _ => false end.

Definition fail_with (result : pydict) (msg : string) : pydict :=
  <["msg" := VStr msg]> (<["failed" := VBool true]> result).

(** Lines 249-256: the running values go into the last result, unless the
    task is asynchronous. *)
Definition aggregate (async_val : Z) (st : loop_state) : pydict :=
  if (async_val =? 0)%Z then
    <["installed_update_count" := installed_update_count st]>
      (<["found_update_count" := found_update_count st]>
         (<["filtered_updates" := filtered_updates st]>
            (<["updates" := updates st]>
               (<["changed" := changed st]> (result st)))))
  else result st.

Section Run.

(** [ansible.module_utils.parsing.convert_bool.boolean], which is not
    part of the file: it gives the truth value of its argument, or
    raises [TypeError] with a message. *)
Variable boolean : pyval → string + bool.

(** [run].  [responses] are the answers of the module to the runs the
    plugin makes, in order. *)
Definition run (t : task) (responses : list pydict) : M pydict :=
  let result := base_result t in
  let category_names := category_list (arg_category_names t) in
  let state := default (VStr "installed") (arg_state t) in
  let reboot := default (VBool false) (arg_reboot t) in
  let reboot_timeout :=
    default (VInt DEFAULT_REBOOT_TIMEOUT) (arg_reboot_timeout t) in
  try_except
    (lift (_validate_categories category_names);; mret None)
    is_AnsibleError
    (λ exc, mret (Some (fail_with result exc))) ≫= λ invalid,
  match invalid with
  | Some result => mret result
  | None =>
  if negb (eq_text state "installed" || eq_text state "searched")
  then mret (fail_with result "state must be either installed or searched")
  else
  match boolean reboot with
  | inl exc =>
      mret (fail_with result ("cannot parse reboot as a boolean: " +:+ exc))
  | inr reboot =>
  if negb (is_int reboot_timeout)
  then mret (fail_with result "reboot_timeout must be an integer")
  else
  if reboot && (0 <? async_val t)%Z
  then mret (fail_with result
               "async is not supported for this task when reboot=yes")
  else
  match responses with
  | [] => stuck
  | response :: responses =>
  result ← _run_win_updates response;
  changed ← lift (py_index result "changed");
  let updates := py_get result "updates" (VDict ∅) in
  let filtered_updates := py_get result "filtered_updates" (VDict ∅) in
  let found_update_count := py_get result "found_update_count" (VInt 0) in
  let installed_update_count :=
    py_get result "installed_update_count" (VInt 0) in
  let st := LoopState result changed updates filtered_updates
              found_update_count installed_update_count false in
  pc ← get_context;
  st ← (if reboot && eq_text state "installed" && negb (check_mode pc)
        then reboot_loop reboot_timeout responses st
        else mret st);
  mret (aggregate (async_val t) st)
  end
  end
  end.

End Run.

(** ** Reading a trace *)

(** The answers of the module runs in a trace, in order. *)
Fixpoint cycles (tr : list event) : list pydict :=
  match tr with
  | [] => []
  | EvCycle response :: tr => response :: cycles tr
  | _ :: tr => cycles tr
  end.

(** The number of calls of [win_reboot] in a trace. *)
Fixpoint reboots (tr : list event) : nat :=
  match tr with
  | [] => 0
  | EvReboot _ _ :: tr => S (reboots tr)
  | _ :: tr => reboots tr
  end.

(** The context the busy probe runs under. *)
Definition elevated (pc : play_context) : play_context :=
  PlayContext (Some true) (Some "runas") (Some "SYSTEM") (check_mode pc)
              (other_attributes pc).

(** The exception a plugin's answer makes [_reboot_server] raise. *)
Definition plugin_failure (answer : plugin_result) : option exn :=
  if default false (pr_failed answer)
  then Some (match pr_msg answer with
             | Some m => AnsibleError m
             | None => KeyError "msg"
             end)
  else None.

(** Whether the probe ends with an exception [except Exception] lets
    through. *)
Definition probe_escapes (answer : probe_outcome) : option exn :=
  match answer with
  | ProbeRaised e => if is_Exception e then None else Some e
  | ProbeReturned _ => None
  end.

(** The calls one [_reboot_server] makes on a host that behaves as
    [env], and how it ends. *)
Definition reboot_events (reboot_timeout : pyval) (pc : play_context)
    (env : reboot_env) : list event :=
  EvReboot reboot_timeout (reboot_answer env) ::
  match plugin_failure (reboot_answer env) with
  | Some _ => []
  | None =>
      EvProbe (elevated pc) (probe_answer env) ::
      match probe_escapes (probe_answer env) with
      | Some _ => []
      | None => [EvWait (wait_answer env)]
      end
  end.

Definition reboot_outcome (env : reboot_env) : outcome unit :=
  match plugin_failure (reboot_answer env) with
  | Some e => Raise e
  | None =>
      match probe_escapes (probe_answer env) with
      | Some e => Raise e
      | None =>
          match plugin_failure (wait_answer env) with
          | Some e => Raise e
          | None => Ok tt
          end
      end
  end.

(** A world in which nothing has happened yet. *)
Definition initial (pc : play_context) (script : nat → reboot_env) : world :=
  World pc script 0 [].

(** Whether the check for a repeated failure ends the loop. *)
Definition guard_breaks (st : loop_state) : bool :=
  truthy (py_get (result st) "failed" (VBool false)) && previously_errored st.

(** Whether an iteration reboots on the result [r]. *)
Definition reboot_due (r : pydict) : bool :=
  truthy (py_get r "reboot_required" (VBool false)).

(** The reason an iteration gives for its reboot. *)
Definition reboot_reason (r : pydict) : string :=
  if eq_text (py_get r "msg" (VStr "")) reboot_sentinel
  then "reboot was required before more updates can be installed"
  else "reboot was required to finalise update install".

(** The result an iteration leaves when its reboot fails with [exc]. *)
Definition reboot_failure (r : pydict) (exc : string) : pydict :=
  <["msg" := VStr ("Failed to reboot remote host when " +:+
                   reboot_reason r +:+ ": " +:+ exc)]>
    (<["failed" := VBool true]> r).

(** The world after one more [_reboot_server]. *)
Definition rebooted (reboot_timeout : pyval) (w : world) : world :=
  World (context w) (reboot_script w) (S (reboot_count w))
        (trace w ++ reboot_events reboot_timeout (context w)
                      (reboot_script w (reboot_count w))).

(** The world after one more run of the module. *)
Definition cycled (response : pydict) (w : world) : world :=
  World (context w) (reboot_script w) (reboot_count w)
        (trace w ++ [EvCycle response]).

(** The running values after the answer [r] is added to those of [st]. *)
Definition merged (r : pydict) (st : loop_state) : outcome loop_state :=
  u ← _merge_dict (updates st) (py_get r "updates" (VDict ∅));
  f ← _merge_dict (filtered_updates st) (py_get r "filtered_updates" (VDict ∅));
  n ← py_add (found_update_count st) (py_get r "found_update_count" (VInt 0));
  i ← py_add (installed_update_count st)
        (py_get r "installed_update_count" (VInt 0));
  c ← py_index r "changed";
  Ok (LoopState r (if truthy c then VBool true else changed st) u f n i
                (previously_errored st)).

(** The running values after the first run of the module answered [r],
    whose [changed] is [c] (lines 189-193 and 198). *)
Definition first_state (r : pydict) (c : pyval) : loop_state :=
  LoopState r c (py_get r "updates" (VDict ∅))
            (py_get r "filtered_updates" (VDict ∅))
            (py_get r "found_update_count" (VInt 0))
            (py_get r "installed_update_count" (VInt 0)) false.

(** The value [reboot_timeout] has in [run]. *)
Definition timeout_of (t : task) : pyval :=
  default (VInt DEFAULT_REBOOT_TIMEOUT) (arg_reboot_timeout t).

Definition outcome_map {A B} (f : A → B) (o : outcome A) : outcome B :=
  match o with
  | Ok a => Ok (f a)
  | Raise e => Raise e
  | Stuck => Stuck
  end.

(** The state a [control] carries. *)
Definition state_of (ctl : control) : loop_state :=
  match ctl with Break st | Proceed st => st end.

(** Whether some answer in [cs] reports a change. *)
Definition any_changed (cs : list pydict) : bool :=
  existsb (λ c, truthy (py_get c "changed" (VBool false))) cs.

(** The flag is the disjunction of what the runs reported and of whether
    a reboot was made. *)
Definition changed_inv (st : loop_state) (w : world) : Prop :=
  truthy (changed st) =
    any_changed (cycles (trace w)) || (0 <? reboots (trace w)).

(** The count an answer gives under the key [k]: 0 when it is absent. *)
Definition count_of (k : string) (c : pydict) : Z :=
  match py_get c k (VInt 0) with VInt z => z | _ => 0%Z end.

(** The sum of the counts under [k] over the answers [cs]. *)
Definition total (k : string) (cs : list pydict) : Z :=
  foldr Z.add 0%Z (count_of k <$> cs).

(** The count under [k], when the answer has one, is an integer. *)
Definition integer_count (k : string) (c : pydict) : bool :=
  match c !! k with
  | None | Some (VInt _) => true
  | Some _ => false
  end.

Definition integer_counts (c : pydict) : bool :=
  integer_count "found_update_count" c &&
  integer_count "installed_update_count" c.

(** The running counts are the sums over the runs made so far. *)
Definition counts_inv (st : loop_state) (w : world) : Prop :=
  Forall (λ c, integer_counts c = true) (cycles (trace w)) →
  found_update_count st =
    VInt (total "found_update_count" (cycles (trace w))) ∧
  installed_update_count st =
    VInt (total "installed_update_count" (cycles (trace w))).

(** Whether an answer of the module reports a failure. *)
Definition failed_cycle (c : pydict) : bool :=
  truthy (py_get c "failed" (VBool false)).

(** No two answers in a row are failures. *)
Definition no_repeated_failure (cs : list pydict) : Prop :=
  ∀ k c1 c2, cs !! k = Some c1 → cs !! S k = Some c2 →
    ¬ (failed_cycle c1 = true ∧ failed_cycle c2 = true).

(** At the head of the loop: the result at hand is the last answer,
    [previously_errored] tells whether the answer before it was a failure,
    and no two failures in a row came before. *)
Definition failure_inv (st : loop_state) (w : world) : Prop :=
  ∃ cs, cycles (trace w) = cs ++ [result st] ∧
        previously_errored st = from_option failed_cycle false (last cs) ∧
        no_repeated_failure cs.

(** When the loop has ended: two failures in a row are the last two
    answers, the loop did end, what it returns is the second of them, and
    an exception comes from reading the second of them. *)
Definition failure_post (o : outcome loop_state) (w : world) : Prop :=
  ∀ k c1 c2,
    cycles (trace w) !! k = Some c1 → cycles (trace w) !! S k = Some c2 →
    failed_cycle c1 = true → failed_cycle c2 = true →
    length (cycles (trace w)) = S (S k) ∧
    o ≠ Stuck ∧
    (∀ st', o = Ok st' → result st' = c2) ∧
    (∀ e, o = Raise e →
       loop_condition c2 = Raise e ∨ ∃ st, merged c2 st = Raise e).

(** The exception a call recorded in the trace made [_reboot_server]
    raise, if any: the failure of [win_reboot] or of
    [wait_for_connection]. *)
Definition event_failure (ev : event) : option exn :=
  match ev with
  | EvReboot _ answer | EvWait answer => plugin_failure answer
  | _ => None
  end.

(** At the head of the loop: no call has failed, and the result at hand
    is the last answer of the module. *)
Definition reboot_inv (st : loop_state) (w : world) : Prop :=
  Forall (λ ev, event_failure ev = None) (trace w) ∧
  last (cycles (trace w)) = Some (result st).

(** When the loop has ended: a call that failed with a message is the
    last call made, and the loop returned the result it then had, marked
    as failed. *)
Definition reboot_post (o : outcome loop_state) (w : world) : Prop :=
  ∀ pre ev post m,
    trace w = pre ++ ev :: post →
    event_failure ev = Some (AnsibleError m) →
    post = [] ∧
    ∃ c st', last (cycles pre) = Some c ∧ o = Ok st' ∧
             result st' = reboot_failure c m.

(** Texts made of white space only. *)
Fixpoint all_space (s : string) : bool :=
  match s with
  | EmptyString => true
  | String c s' => is_space c && all_space s'
  end.

(** Texts without the character [sep]. *)
Fixpoint free_of (sep : Ascii.ascii) (s : string) : bool :=
  match s with
  | EmptyString => true
  | String c s' => negb (Ascii.eqb c sep) && free_of sep s'
  end.

(** A name between two paddings. *)
Definition padded (item : string * string * string) : string :=
  item.1.1 +:+ item.1.2 +:+ item.2.

(** The task [t] with [category_names] given as [a]. *)
Definition with_categories (a : category_arg) (t : task) : task :=
  Task (Some a) (arg_state t) (arg_reboot t) (arg_reboot_timeout t)
       (async_val t) (base_result t).

(** ** Sample inputs *)

(** A converter that agrees with [boolean] on objects of type [bool], and
    refuses every other object. *)
Definition bool_only (v : pyval) : string + bool :=
  match v with
  | VBool b => inr b
  | _ => inl "The value is not a valid boolean."
  end.

(** A play context without elevation, not in check mode. *)
Definition plain_context : play_context := PlayContext None None None false ∅.

Definition plugin_ok : plugin_result := PluginResult None None.

Definition plugin_failed (m : string) : plugin_result :=
  PluginResult (Some true) (Some m).

(** A host on which every reboot goes well. *)
Definition calm_host : nat → reboot_env :=
  λ _, RebootEnv plugin_ok (ProbeReturned ∅) plugin_ok.

(** A host on which [win_reboot] fails. *)
Definition stubborn_host : nat → reboot_env :=
  λ _, RebootEnv (plugin_failed "timed out") (ProbeReturned ∅) plugin_ok.

(** [win_updates: reboot: yes], every other argument left out. *)
Definition reboot_task : task :=
  Task None None (Some (VBool true)) None 0 ∅.

(** An answer of the module with the four fields the loop reads. *)
Definition answer (changed : pyval) (found installed : Z)
    (reboot_required : bool) : pydict :=
  {[ "changed" := changed;
     "found_update_count" := VInt found;
     "installed_update_count" := VInt installed;
     "reboot_required" := VBool reboot_required ]}.

(** An answer that fails with the message [m]. *)
Definition failure (m : string) (a : pydict) : pydict :=
  <["msg" := VStr m]> (<["failed" := VBool true]> a).

(** Whether a computation returned, and what. *)
Definition is_Ok {A} (o : outcome A) : bool :=
  match o with Ok _ => true | _ => false end.

Definition value_of {A} (d : A) (o : outcome A) : A :=
  match o with Ok a => a | _ => d end.

(** Closed goals are settled by evaluation. *)
Ltac evaluate :=
  lazymatch goal with
  | |- ?P => apply (bool_decide_eq_true_1 P); vm_compute; reflexivity
  end.

(** ** Dictionaries as objects

    [_merge_dict] copies its first argument and updates the copy.  Here
    the dictionaries are objects in a store, so that what the method does
    to the two objects it is given can be told. *)
Module Store.

Definition location : Type := positive.

(** The contents of the dictionary objects. *)
Abbreviation store := (gmap location (gmap string string)).

(** [d.copy()]: a new object with the contents of [d]. *)
Definition copy (d : location) (h : store) : option (location * store) :=
  contents ← h !! d;
  let fresh_location := fresh (dom h) in
  Some (fresh_location, <[fresh_location := contents]> h).

(** [d.update(new)]: the object [d] is changed in place. *)
Definition update (d new : location) (h : store) : option store :=
  contents ← h !! d;
  added ← h !! new;
  Some (<[d := added ∪ contents]> h).

(** [_merge_dict(original, new)] *)
Definition _merge_dict (original new : location) (h : store)
  : option (location * store) :=
  '(dict_var, h) ← copy original h;
  h ← update dict_var new h;
  Some (dict_var, h).

End Store.

(** The example of the spec, with a third answer that ends the loop. *)
Definition example_answers : list pydict :=
  [ answer (VBool false) 5 0 true;
    answer (VBool true) 0 5 false;
    answer (VBool false) 0 0 false ].

(** Two failures in a row. *)
Definition failing_answers : list pydict :=
  [ failure "first" (answer (VBool false) 1 0 false);
    failure "second" (answer (VBool false) 1 0 false) ].

(** ** The checks of [run], read as a whole *)

(** The text of the error of [_validate_categories] for the name [n]. *)
Definition unknown_category_message (n : string) : string :=
  "Unknown category_name " +:+ n +:+
  ", must be one of (Application,Connectors,CriticalUpdates,DefinitionUpdates,DeveloperKits,FeaturePacks,Guidance,SecurityUpdates,ServicePacks,Tools,UpdateRollups,Updates)".

(** The value [state] has in [run]. *)
Definition state_option (t : task) : pyval :=
  default (VStr "installed") (arg_state t).

(** The value [reboot] has in [run] before it is converted. *)
Definition reboot_option (t : task) : pyval :=
  default (VBool false) (arg_reboot t).

(** The options of [t] pass the five checks of [run] (lines 152-181),
    [reboot] being converted to [b]. *)
Definition validated (boolean : pyval → string + bool) (t : task) (b : bool)
  : Prop :=
  _validate_categories (category_list (arg_category_names t)) = Ok tt ∧
  (state_option t = VStr "installed" ∨ state_option t = VStr "searched") ∧
  boolean (reboot_option t) = inr b ∧
  is_int (timeout_of t) = true ∧
  (b = true → (async_val t ≤ 0)%Z).

(** Whether [run] enters its loop: reboots are asked for, the state is
    [installed], and the play is not in check mode. *)
Definition loop_enabled (t : task) (b : bool) (pc : play_context) : bool :=
  b && eq_text (state_option t) "installed" && negb (check_mode pc).

(** A host on which the busy probe fails after every reboot. *)
Definition flaky_probe_host : nat → reboot_env :=
  λ _, RebootEnv plugin_ok (ProbeRaised (OtherError "connection reset"))
         plugin_ok.

(** A host on which [win_reboot] fails without saying why. *)
Definition mute_host : nat → reboot_env :=
  λ _, RebootEnv (PluginResult (Some true) None) (ProbeReturned ∅) plugin_ok.

(** ** Reading a trace, continued *)

(** Every call of [win_reboot] in [tr] was made with the timeout [tm],
    after an answer of the module whose [reboot_required] is true. *)
Definition reboots_justified (tm : pyval) (tr : list event) : Prop :=
  ∀ pre t a post,
    tr = pre ++ EvReboot t a :: post →
    t = tm ∧ ∃ c, last (cycles pre) = Some c ∧ reboot_due c = true.

(** At the head of the loop: the reboots made so far were justified, and
    the result at hand is the last answer of the module. *)
Definition justified_inv (tm : pyval) (st : loop_state) (w : world) : Prop :=
  reboots_justified tm (trace w) ∧
  last (cycles (trace w)) = Some (result st).

(** The mapping an answer gives under the key [k]: empty when it is
    absent. *)
Definition mapping_of (k : string) (c : pydict) : gmap string string :=
  match py_get c k (VDict ∅) with VDict d => d | _ => ∅ end.

(** The mappings under [k] of the answers [cs], merged in order: a later
    answer wins. *)
Definition union_all (k : string) (cs : list pydict) : gmap string string :=
  foldl (λ acc c, mapping_of k c ∪ acc) ∅ cs.

(** The value under [k], when the answer has one, is a mapping. *)
Definition mapping_field (k : string) (c : pydict) : bool :=
  match c !! k with
  | None | Some (VDict _) => true
  | Some _ => false
  end.

Definition mapping_fields (c : pydict) : bool :=
  mapping_field "updates" c && mapping_field "filtered_updates" c.

(** The running mappings are the merge of those of the runs made so
    far. *)
Definition updates_inv (st : loop_state) (w : world) : Prop :=
  Forall (λ c, mapping_fields c = true) (cycles (trace w)) →
  updates st = VDict (union_all "updates" (cycles (trace w))) ∧
  filtered_updates st =
    VDict (union_all "filtered_updates" (cycles (trace w))).

(** The five keys [run] writes into the result it returns. *)
Definition aggregate_keys : list string :=
  [ "changed"; "updates"; "filtered_updates"; "found_update_count";
    "installed_update_count" ].

(** At the head of the loop: the last call made is the run of the module
    that gave the result at hand. *)
Definition last_run_inv (st : loop_state) (w : world) : Prop :=
  last (trace w) = Some (EvCycle (result st)).

(** When the loop has returned and no call has failed: the last call made
    is the run of the module that gave the result returned. *)
Definition last_run_post (o : outcome loop_state) (w : world) : Prop :=
  ∀ st', o = Ok st' →
    Forall (λ ev, event_failure ev = None) (trace w) →
    last (trace w) = Some (EvCycle (result st')).

(** When the loop has ended: a call that failed with an exception other
    than [AnsibleError] is the last call made, and the exception was not
    caught. *)
Definition escape_post (o : outcome loop_state) (w : world) : Prop :=
  ∀ pre ev post e,
    trace w = pre ++ ev :: post →
    event_failure ev = Some e →
    is_AnsibleError e = None →
    post = [] ∧ o = Raise e.

(** The running values are two mappings and two integers. *)
Definition typed_state (st : loop_state) : Prop :=
  (∃ d, updates st = VDict d) ∧ (∃ d, filtered_updates st = VDict d) ∧
  (∃ z, found_update_count st = VInt z) ∧
  (∃ z, installed_update_count st = VInt z).

(** An answer that reports work left, no failure and no reboot, with
    fields of the expected kinds. *)
Definition busy_answer (r : pydict) : Prop :=
  is_Some (r !! "changed") ∧
  loop_condition r = Ok true ∧
  failed_cycle r = false ∧
  reboot_due r = false ∧
  integer_counts r = true ∧
  mapping_fields r = true.

(** An answer of the module with [changed], and with counts and mappings
    of the expected kinds where it has them. *)
Definition well_formed_answer (c : pydict) : bool :=
  bool_decide (is_Some (c !! "changed")) &&
  integer_counts c && mapping_fields c.

(** At the head of the loop: what [failure_inv] says, and the running
    values are of the expected kinds when the answers so far are well
    formed. *)
Definition surfaced_inv (st : loop_state) (w : world) : Prop :=
  failure_inv st w ∧
  (Forall (λ c, well_formed_answer c = true) (cycles (trace w)) →
   typed_state st).

(** When the loop has ended: after two failures in a row, with well
    formed answers and a second failure on which the condition of the
    loop can be read, the loop has returned the second failure. *)
Definition surfaced_post (o : outcome loop_state) (w : world) : Prop :=
  ∀ k c1 c2,
    cycles (trace w) !! k = Some c1 → cycles (trace w) !! S k = Some c2 →
    failed_cycle c1 = true → failed_cycle c2 = true →
    Forall (λ c, well_formed_answer c = true) (cycles (trace w)) →
    is_Ok (loop_condition c2) = true →
    ∃ st', o = Ok st' ∧ result st' = c2.

Ltac unfold_monad :=
  unfold mbind, M_bind, bind, mret, M_ret, ret, raise, stuck, lift,
    try_finally, try_except, get_context, modify_context, emit,
    next_reboot in *.

(** * Properties *)

(** ** The primitive steps *)

Lemma returned {A} (d : A) (m : outcome A * world) :
  is_Ok m.1 = true → m = (Ok (value_of d m.1), m.2).
Proof. by destruct m as [[] ?]. Qed.

Lemma cycles_app (tr1 tr2 : list event) :
  cycles (tr1 ++ tr2) = cycles tr1 ++ cycles tr2.
Proof.
  induction tr1 as [|[] tr1 IH]; simpl; [done | by f_equal | done ..].
Qed.

Lemma reboots_app (tr1 tr2 : list event) :
  reboots (tr1 ++ tr2) = reboots tr1 + reboots tr2.
Proof.
  induction tr1 as [|[] tr1 IH]; simpl; [done | done | by f_equal | done ..].
Qed.

Lemma busy_probe_spec (answer : probe_outcome) (w : world) :
  busy_probe answer w =
    (match probe_escapes answer with Some e => Raise e | None => Ok tt end,
     World (context w) (reboot_script w) (reboot_count w)
           (trace w ++ [EvProbe (elevated (context w)) answer])).
Proof.
  destruct w as [[b m u cm oa] rs n tr].
  unfold busy_probe, elevated, execute_win_shell, probe_escapes.
  unfold_monad; simpl.
  destruct b as [[]|]; simpl; repeat case_bool_decide; simplify_eq; simpl;
    destruct answer as [r|[]]; simpl; reflexivity.
Qed.

Lemma failed_msg_spec (answer : plugin_result) :
  failed_msg answer =
    match plugin_failure answer with Some e => Raise e | None => Ok tt end.
Proof.
  unfold failed_msg, plugin_failure.
  destruct (default false (pr_failed answer)); [|done].
  by destruct (pr_msg answer).
Qed.

Lemma _reboot_server_spec (reboot_timeout : pyval) (w : world) :
  _reboot_server reboot_timeout w =
    (reboot_outcome (reboot_script w (reboot_count w)),
     rebooted reboot_timeout w).
Proof.
  destruct w as [pc rs n tr]; simpl.
  unfold _reboot_server, reboot_outcome, rebooted, reboot_events; simpl.
  unfold mbind, M_bind, bind at 1. unfold next_reboot; simpl.
  unfold bind at 1. unfold emit at 1; simpl.
  unfold bind at 1. rewrite !failed_msg_spec. unfold lift at 1.
  destruct (plugin_failure (reboot_answer (rs n))); [done|].
  unfold bind at 1. rewrite busy_probe_spec; simpl.
  destruct (probe_escapes (probe_answer (rs n))); [by rewrite <- app_assoc|].
  unfold bind at 1. unfold emit at 1, lift; simpl.
  rewrite <- !app_assoc; simpl.
  by destruct (plugin_failure (wait_answer (rs n))).
Qed.

Lemma reboot_if_required_spec (reboot_timeout : pyval) (st : loop_state)
    (w : world) :
  reboot_if_required reboot_timeout st w =
    if reboot_due (result st) then
      (match reboot_outcome (reboot_script w (reboot_count w)) with
       | Ok _ => Ok (Proceed (set_changed (VBool true) st))
       | Raise e =>
           match is_AnsibleError e with
           | Some exc =>
               Ok (Break (set_changed (VBool true)
                            (set_result (reboot_failure (result st) exc) st)))
           | None => Raise e
           end
       | Stuck => Stuck
       end, rebooted reboot_timeout w)
    else (Ok (Proceed st), w).
Proof.
  unfold reboot_if_required, reboot_due, reboot_failure, reboot_reason.
  destruct (truthy (py_get (result st) "reboot_required" (VBool false)));
    [|done].
  unfold try_except, mbind, M_bind, bind. rewrite _reboot_server_spec.
  destruct (reboot_outcome _) as [[]|e|]; [done| |done].
  destruct e; simpl; try done.
  by destruct (eq_text _ _).
Qed.

Lemma check_and_reboot_spec (reboot_timeout : pyval) (st : loop_state)
    (w : world) :
  check_and_reboot reboot_timeout st w =
    if guard_breaks st then (Ok (Break st), w)
    else reboot_if_required reboot_timeout
           (set_previously_errored
              (truthy (py_get (result st) "failed" (VBool false))) st) w.
Proof.
  unfold check_and_reboot, guard_breaks.
  destruct (truthy _); simpl; [|done].
  by destruct (previously_errored st).
Qed.

Lemma rerun_and_merge_spec (r : pydict) (st : loop_state) (w : world) :
  rerun_and_merge r st w = (merged r st, cycled r w).
Proof.
  unfold rerun_and_merge, merged, _run_win_updates, cycled; simpl.
  unfold mbind at 1 2, M_bind, bind, emit, mret, M_ret, ret; simpl.
  unfold mbind at 1 6, M_bind, bind, lift.
  destruct (_merge_dict (updates st) _); [simpl|done..].
  destruct (_merge_dict (filtered_updates st) _); [simpl|done..].
  destruct (py_add (found_update_count st) _); [simpl|done..].
  destruct (py_add (installed_update_count st) _); [simpl|done..].
  by destruct (py_index r "changed").
Qed.

Lemma reboot_loop_unfold (reboot_timeout : pyval) (responses : list pydict)
    (st : loop_state) (w : world) :
  reboot_loop reboot_timeout responses st w =
    match loop_condition (result st) with
    | Ok true =>
        match check_and_reboot reboot_timeout st w with
        | (Ok (Break st'), w') => (Ok st', w')
        | (Ok (Proceed st1), w1) =>
            match responses with
            | [] => (Stuck, w1)
            | r :: responses =>
                match merged r st1 with
                | Ok st2 =>
                    reboot_loop reboot_timeout responses st2 (cycled r w1)
                | Raise e => (Raise e, cycled r w1)
                | Stuck => (Stuck, cycled r w1)
                end
            end
        | (Raise e, w') => (Raise e, w')
        | (Stuck, w') => (Stuck, w')
        end
    | Ok false => (Ok st, w)
    | Raise e => (Raise e, w)
    | Stuck => (Stuck, w)
    end.
Proof.
  destruct responses as [|r responses]; simpl;
    unfold mbind at 1, M_bind, bind, lift;
    (destruct (loop_condition (result st)) as [[|]|e|]; [|done..]);
    unfold mbind, bind;
    (destruct (check_and_reboot reboot_timeout st w) as [[[st'|st1]|e|] w'];
     try done).
  rewrite rerun_and_merge_spec. by destruct (merged r st1).
Qed.

Lemma loop_condition_not_Stuck (r : pydict) : loop_condition r ≠ Stuck.
Proof.
  unfold loop_condition, py_index, py_gt0, mbind, outcome_bind.
  destruct (r !! "installed_update_count") as [v1|]; [|done].
  destruct (as_int v1) as [z1|]; [|done]. destruct (0 <? z1)%Z; [done|].
  destruct (r !! "found_update_count") as [v2|]; [|done].
  destruct (as_int v2) as [z2|]; [|done]. destruct (0 <? z2)%Z; [done|].
  by destruct (r !! "reboot_required").
Qed.

(** *** An induction rule for the loop

    [I] holds whenever the condition of the [while] is evaluated, [Q]
    of the way the loop ends. *)
Lemma reboot_loop_rule (I : loop_state → world → Prop)
    (Q : outcome loop_state → world → Prop) (reboot_timeout : pyval) :
  (∀ st w e, I st w → loop_condition (result st) = Raise e → Q (Raise e) w) →
  (∀ st w, I st w → loop_condition (result st) = Ok false → Q (Ok st) w) →
  (∀ st w, I st w → loop_condition (result st) = Ok true →
     match check_and_reboot reboot_timeout st w with
     | (Ok (Break st'), w') => Q (Ok st') w'
     | (Raise e, w') => Q (Raise e) w'
     | (Stuck, w') => Q Stuck w'
     | (Ok (Proceed st1), w1) =>
         Q Stuck w1 ∧
         ∀ r, match merged r st1 with
              | Ok st2 => I st2 (cycled r w1)
              | Raise e => Q (Raise e) (cycled r w1)
              | Stuck => Q Stuck (cycled r w1)
              end
     end) →
  ∀ responses st w, I st w →
    Q (reboot_loop reboot_timeout responses st w).1
      (reboot_loop reboot_timeout responses st w).2.
Proof.
  intros Hraise Hexit Hstep responses.
  induction responses as [|r responses IH]; intros st w HI;
    rewrite reboot_loop_unfold;
    specialize (Hraise st w); specialize (Hexit st w);
    specialize (Hstep st w HI);
    pose proof (loop_condition_not_Stuck (result st)) as Hns;
    (destruct (loop_condition (result st)) as [[|]|e|]; simpl;
     [|by auto..]);
    specialize (Hstep eq_refl);
    (destruct (check_and_reboot reboot_timeout st w) as [[[st'|st1]|e|] w'];
     simpl; [done| |done..]);
    destruct Hstep as [Hstuck Hmerge]; [done|].
  specialize (Hmerge r).
  destruct (merged r st1); simpl; [by apply IH|done..].
Qed.

(** ** The shape of [run] *)

Section RunShape.

Variable boolean : pyval → string + bool.

(** Either no run of the module is made, or the first run is followed
    by the loop or by nothing. *)
Lemma run_inv (t : task) (responses : list pydict) (w w' : world)
    (o : outcome pydict) :
  run boolean t responses w = (o, w') →
  (w' = w ∧ ∀ res, o = Ok res → ∃ m, res = fail_with (base_result t) m)
  ∨ ∃ r rs, responses = r :: rs ∧
      ((r !! "changed" = None ∧ o = Raise (KeyError "changed") ∧
        w' = cycled r w)
       ∨ ∃ c, r !! "changed" = Some c ∧
           ((o = Ok (aggregate (async_val t) (first_state r c)) ∧
             w' = cycled r w)
            ∨ ((async_val t ≤ 0)%Z ∧
               ∃ o1, reboot_loop (timeout_of t) rs (first_state r c)
                       (cycled r w) = (o1, w') ∧
                     o = outcome_map (aggregate (async_val t)) o1))).
Proof.
  intros Hrun.
  unfold run, _run_win_updates, py_index in Hrun.
  unfold_monad. simpl in Hrun.
  destruct (_validate_categories _) as [[]|e|]; simpl in Hrun.
  2:{ left. destruct e; simpl in Hrun; naive_solver. }
  2:{ left. naive_solver. }
  destruct (negb _); [left; naive_solver|].
  destruct (boolean _) as [exc|reboot]; [left; naive_solver|].
  destruct (negb _); [left; naive_solver|].
  destruct (reboot && (0 <? async_val t)%Z) eqn:Hasync;
    [left; naive_solver|].
  destruct responses as [|r rs]; [left; naive_solver|].
  right. exists r, rs. split; [done|].
  fold (cycled r w) in Hrun. simpl in Hrun.
  destruct (r !! "changed") as [c|]; [|left; naive_solver].
  right. exists c. split; [done|].
  fold (first_state r c) in Hrun. fold (timeout_of t) in Hrun.
  destruct (reboot && eq_text _ _ && negb _) eqn:Hgate.
  - right. split.
    + destruct reboot; [|done]. simpl in Hasync.
      by apply Z.ltb_ge in Hasync.
    + destruct (reboot_loop _ _ _ _) as [[]?]; naive_solver.
  - left. naive_solver.
Qed.

End RunShape.

(** ** The aggregate [changed] *)

Lemma merged_Ok (r : pydict) (st st' : loop_state) :
  merged r st = Ok st' →
  ∃ c u f n i,
    r !! "changed" = Some c ∧
    _merge_dict (updates st) (py_get r "updates" (VDict ∅)) = Ok u ∧
    _merge_dict (filtered_updates st) (py_get r "filtered_updates" (VDict ∅))
      = Ok f ∧
    py_add (found_update_count st) (py_get r "found_update_count" (VInt 0))
      = Ok n ∧
    py_add (installed_update_count st)
      (py_get r "installed_update_count" (VInt 0)) = Ok i ∧
    st' = LoopState r (if truthy c then VBool true else changed st) u f n i
            (previously_errored st).
Proof.
  unfold merged, mbind, outcome_bind, py_index. intros H.
  destruct (_merge_dict (updates st) _) as [u| |]; [|done..].
  destruct (_merge_dict (filtered_updates st) _) as [f| |]; [|done..].
  destruct (py_add (found_update_count st) _) as [n| |]; [|done..].
  destruct (py_add (installed_update_count st) _) as [i| |]; [|done..].
  destruct (r !! "changed") as [c|]; [|done].
  exists c, u, f, n, i. by simplify_eq.
Qed.

Lemma py_add_not_Stuck (a b : pyval) : py_add a b ≠ Stuck.
Proof. unfold py_add. destruct (as_int a), (as_int b), a, b; done. Qed.

Lemma _merge_dict_not_Stuck (a b : pyval) : _merge_dict a b ≠ Stuck.
Proof.
  unfold _merge_dict, dict_update, mbind, outcome_bind.
  destruct a; try done. destruct b; try done.
  by destruct (String.eqb _ _).
Qed.

Lemma merged_not_Stuck (r : pydict) (st : loop_state) : merged r st ≠ Stuck.
Proof.
  unfold merged, mbind, outcome_bind, py_index.
  pose proof (_merge_dict_not_Stuck (updates st)
                (py_get r "updates" (VDict ∅))).
  destruct (_merge_dict (updates st) _); [|done..].
  pose proof (_merge_dict_not_Stuck (filtered_updates st)
                (py_get r "filtered_updates" (VDict ∅))).
  destruct (_merge_dict (filtered_updates st) _); [|done..].
  pose proof (py_add_not_Stuck (found_update_count st)
                (py_get r "found_update_count" (VInt 0))).
  destruct (py_add (found_update_count st) _); [|done..].
  pose proof (py_add_not_Stuck (installed_update_count st)
                (py_get r "installed_update_count" (VInt 0))).
  destruct (py_add (installed_update_count st) _); [|done..].
  by destruct (r !! "changed").
Qed.

Lemma any_changed_snoc (cs : list pydict) (r : pydict) :
  any_changed (cs ++ [r]) =
    any_changed cs || truthy (py_get r "changed" (VBool false)).
Proof.
  unfold any_changed. rewrite existsb_app; simpl. by rewrite orb_false_r.
Qed.

Lemma reboots_reboot_events (t : pyval) (pc : play_context) (env : reboot_env) :
  reboots (reboot_events t pc env) = 1.
Proof.
  unfold reboot_events; simpl.
  destruct (plugin_failure _); [done|]; simpl.
  by destruct (probe_escapes _).
Qed.

Lemma cycles_reboot_events (t : pyval) (pc : play_context) (env : reboot_env) :
  cycles (reboot_events t pc env) = [].
Proof.
  unfold reboot_events; simpl.
  destruct (plugin_failure _); [done|]; simpl.
  by destruct (probe_escapes _).
Qed.


Lemma changed_inv_merged (r : pydict) (st st' : loop_state) (w : world) :
  changed_inv st w → merged r st = Ok st' → changed_inv st' (cycled r w).
Proof.
  unfold changed_inv. intros HI (c & u & f & n & i & Hc & _ & _ & _ & _ & ->)%merged_Ok.
  unfold cycled; cbn [trace changed].
  rewrite cycles_app, reboots_app. cbn [cycles reboots].
  rewrite any_changed_snoc, Nat.add_0_r. unfold py_get. rewrite Hc; simpl.
  destruct (truthy c); simpl.
  - by rewrite orb_true_r.
  - by rewrite orb_false_r.
Qed.

Lemma changed_inv_loop (reboot_timeout : pyval) (responses : list pydict)
    (st st' : loop_state) (w : world) :
  changed_inv st w →
  (reboot_loop reboot_timeout responses st w).1 = Ok st' →
  changed_inv st' (reboot_loop reboot_timeout responses st w).2.
Proof.
  intros HI.
  revert st'.
  apply (reboot_loop_rule changed_inv
           (λ o w, ∀ st', o = Ok st' → changed_inv st' w) reboot_timeout);
    [done| by intros; simplify_eq | | done].
  clear. intros st w HI _.
  rewrite check_and_reboot_spec. destruct (guard_breaks st).
  { by intros; simplify_eq. }
  rewrite reboot_if_required_spec; simpl.
  destruct (reboot_due (result st)).
  - assert (changed_inv (set_changed (VBool true) (set_previously_errored
              (truthy (py_get (result st) "failed" (VBool false))) st))
              (rebooted reboot_timeout w)) as HI'.
    { unfold changed_inv, rebooted; simpl.
      rewrite reboots_app, reboots_reboot_events.
      replace (0 <? reboots (trace w) + 1) with true; [by rewrite orb_true_r|].
      symmetry. apply Nat.ltb_lt. lia. }
    destruct (reboot_outcome _) as [[]|e|]; [|destruct e; simpl|done].
    all: try done.
    + split; [done|]. intros r.
      destruct (merged r _) eqn:Hm; [|done..].
      eapply changed_inv_merged; eauto.
    + intros; simplify_eq. done.
  - split; [done|]. intros r.
    destruct (merged r _) eqn:Hm; [|done..].
    eapply changed_inv_merged; [|exact Hm]. exact HI.
Qed.

Lemma any_changed_true (cs : list pydict) :
  any_changed cs = true ↔
  ∃ c, c ∈ cs ∧ truthy (py_get c "changed" (VBool false)) = true.
Proof.
  unfold any_changed. rewrite existsb_exists.
  split; intros (c & Hc & Ht); exists c; split; try done;
    by apply list_elem_of_In.
Qed.

Lemma aggregate_changed (st : loop_state) :
  aggregate 0 st !! "changed" = Some (changed st).
Proof. unfold aggregate; simpl. by simplify_map_eq. Qed.

Lemma changed_monotone_check (reboot_timeout : pyval) (st : loop_state)
    (w : world) (ctl : control) :
  (check_and_reboot reboot_timeout st w).1 = Ok ctl →
  truthy (changed st) = true → truthy (changed (state_of ctl)) = true.
Proof.
  rewrite check_and_reboot_spec. destruct (guard_breaks st).
  { by intros; simplify_eq/=. }
  rewrite reboot_if_required_spec; simpl.
  destruct (reboot_due (result st)); [|by intros; simplify_eq/=].
  destruct (reboot_outcome _) as [[]|e|]; simpl; [by intros; simplify_eq/=| |done].
  destruct (is_AnsibleError e); by intros; simplify_eq/=.
Qed.

Lemma changed_monotone_merged (r : pydict) (st st' : loop_state) :
  merged r st = Ok st' →
  truthy (changed st) = true → truthy (changed st') = true.
Proof.
  intros (c & u & f & n & i & _ & _ & _ & _ & _ & ->)%merged_Ok Ht; simpl.
  by destruct (truthy c).
Qed.

Lemma changed_monotone_loop (reboot_timeout : pyval) (responses : list pydict)
    (st st' : loop_state) (w : world) :
  (reboot_loop reboot_timeout responses st w).1 = Ok st' →
  truthy (changed st) = true → truthy (changed st') = true.
Proof.
  intros Hloop Ht. revert st' Hloop.
  apply (reboot_loop_rule (λ st _, truthy (changed st) = true)
           (λ o _, ∀ st', o = Ok st' → truthy (changed st') = true)
           reboot_timeout); [done|by intros; simplify_eq| |done].
  clear. intros st w Ht _.
  pose proof (changed_monotone_check reboot_timeout st w) as Hc.
  destruct (check_and_reboot reboot_timeout st w) as [[[st1|st1]|e|] w1];
    simpl in *; [intros st' [= <-]; by apply (Hc (Break st1))| |done..].
  split; [done|]. intros r.
  destruct (merged r st1) eqn:Hm; [|done..].
  eapply changed_monotone_merged; [done|]. by apply (Hc (Proceed st1)).
Qed.

Section Changed.

Variable boolean : pyval → string + bool.

(** C4.  When [run] returns after at least one run of the module, on a
    task whose [async_val] is not negative, [changed] in what it returns is
    true exactly when some run of the module reported a true [changed] or
    [win_reboot] was called.  And the flag only grows: once it is true, the
    check-and-reboot step, the merge of a new answer, the rest of the loop
    and the final write into the result all leave it true. *)
Theorem changed_iff_cycle_changed_or_reboot :
  (∀ (t : task) (responses : list pydict) (pc : play_context)
     (script : nat → reboot_env) (res : pydict) (w' : world),
     (0 ≤ async_val t)%Z →
     run boolean t responses (initial pc script) = (Ok res, w') →
     cycles (trace w') ≠ [] →
     truthy (py_get res "changed" (VBool false)) = true ↔
       (∃ c, c ∈ cycles (trace w') ∧
             truthy (py_get c "changed" (VBool false)) = true)
       ∨ 0 < reboots (trace w'))
  ∧
  (∀ (reboot_timeout : pyval) (st : loop_state) (w : world),
     truthy (changed st) = true →
     (∀ ctl, (check_and_reboot reboot_timeout st w).1 = Ok ctl →
        truthy (changed (state_of ctl)) = true) ∧
     (∀ r st', (rerun_and_merge r st w).1 = Ok st' →
        truthy (changed st') = true) ∧
     (∀ responses st',
        (reboot_loop reboot_timeout responses st w).1 = Ok st' →
        truthy (changed st') = true) ∧
     truthy (py_get (aggregate 0 st) "changed" (VBool false)) = true).
Proof.
  split.
  - intros t responses pc script res w' Hasync Hrun Hne.
    rewrite <- any_changed_true, <- Nat.ltb_lt, <- orb_true_iff.
    cut (truthy (py_get res "changed" (VBool false)) =
         any_changed (cycles (trace w')) || (0 <? reboots (trace w'))).
    { intros ->. done. }
    destruct (run_inv boolean _ _ _ _ _ Hrun)
      as [[-> _]|(r & rs & -> & [(_ & ? & ->)|(c & Hc & [[? ->]|
           (Hle & o1 & Hloop & ?)])])]; simplify_eq/=.
    + unfold any_changed; simpl. rewrite !orb_false_r. unfold aggregate.
      destruct (async_val t =? 0)%Z; unfold py_get; by simplify_map_eq.
    + assert (async_val t = 0)%Z as Hz by lia. rewrite Hz in *.
      destruct o1 as [st'| |]; simplify_eq/=.
      unfold py_get. rewrite aggregate_changed; simpl.
      pose proof (changed_inv_loop (timeout_of t) rs (first_state r c) st'
                    (cycled r (initial pc script))) as Hinv.
      rewrite Hloop in Hinv. apply Hinv; [|done].
      unfold changed_inv, any_changed; simpl. unfold py_get. rewrite Hc.
      by rewrite !orb_false_r.
  - intros timeout st w Ht. repeat split.
    + intros ctl Hctl. by apply (changed_monotone_check timeout st w).
    + intros r st'. rewrite rerun_and_merge_spec; simpl.
      intros Hm. by apply (changed_monotone_merged r st).
    + intros responses st' Hl.
      by apply (changed_monotone_loop timeout responses st st' w).
    + unfold py_get. by rewrite aggregate_changed.
Qed.
End Changed.

(** ** The aggregate counts *)

Lemma total_snoc (k : string) (cs : list pydict) (r : pydict) :
  total k (cs ++ [r]) = (total k cs + count_of k r)%Z.
Proof.
  unfold total. rewrite fmap_app, foldr_app; simpl.
  induction (count_of k <$> cs) as [|z zs IH]; simpl; lia.
Qed.

Lemma py_add_count (z : Z) (k : string) (r : pydict) :
  integer_count k r = true →
  py_add (VInt z) (py_get r k (VInt 0)) = Ok (VInt (z + count_of k r)).
Proof.
  unfold integer_count, count_of, py_get.
  by destruct (r !! k) as [[]|].
Qed.

Lemma counts_inv_merged (r : pydict) (st st' : loop_state) (w : world) :
  counts_inv st w → merged r st = Ok st' → counts_inv st' (cycled r w).
Proof.
  unfold counts_inv.
  intros HI (c & u & f & n & i & _ & _ & _ & Hn & Hi & ->)%merged_Ok.
  unfold cycled; cbn [trace found_update_count installed_update_count].
  rewrite cycles_app; cbn [cycles].
  intros [Hcs [Hr%andb_prop _]%Forall_cons]%Forall_app.
  destruct Hr as [Hf Hin]. destruct (HI Hcs) as [Hfound Hinst].
  rewrite Hfound, (py_add_count _ _ _ Hf) in Hn.
  rewrite Hinst, (py_add_count _ _ _ Hin) in Hi.
  rewrite !total_snoc. by simplify_eq.
Qed.

Lemma counts_inv_loop (reboot_timeout : pyval) (responses : list pydict)
    (st st' : loop_state) (w : world) :
  counts_inv st w →
  (reboot_loop reboot_timeout responses st w).1 = Ok st' →
  counts_inv st' (reboot_loop reboot_timeout responses st w).2.
Proof.
  intros HI. revert st'.
  apply (reboot_loop_rule counts_inv
           (λ o w, ∀ st', o = Ok st' → counts_inv st' w) reboot_timeout);
    [done| by intros; simplify_eq | | done].
  clear. intros st w HI _.
  rewrite check_and_reboot_spec. destruct (guard_breaks st).
  { by intros; simplify_eq. }
  rewrite reboot_if_required_spec; simpl.
  set (st0 := set_previously_errored _ st).
  assert (counts_inv st0 w) as HI0 by done.
  destruct (reboot_due (result st)).
  - assert (∀ r, counts_inv (set_changed (VBool true) (set_result r st0))
                   (rebooted reboot_timeout w)) as HI'.
    { intros r. unfold counts_inv, rebooted; simpl.
      by rewrite cycles_app, cycles_reboot_events, app_nil_r. }
    destruct (reboot_outcome _) as [[]|e|]; [|destruct e; simpl|done];
      try done.
    + split; [done|]. intros r.
      destruct (merged r _) eqn:Hm; [|done..].
      eapply counts_inv_merged; [|exact Hm]. apply (HI' (result st)).
    + intros; simplify_eq. apply HI'.
  - split; [done|]. intros r.
    destruct (merged r _) eqn:Hm; [|done..].
    eapply counts_inv_merged; [|exact Hm]. exact HI0.
Qed.

Lemma aggregate_counts (st : loop_state) :
  aggregate 0 st !! "found_update_count" = Some (found_update_count st) ∧
  aggregate 0 st !! "installed_update_count" =
    Some (installed_update_count st).
Proof. unfold aggregate; simpl. by simplify_map_eq. Qed.

Section Counts.

Variable boolean : pyval → string + bool.

(** C8.  When [run] returns after at least one run of the module, on a
    task that is not asynchronous, and the counts the module gave are
    integers where present, then [found_update_count] and
    [installed_update_count] in what it returns are the sums of the
    counts of all the runs made, the first included, an absent count
    being 0. *)
Theorem counts_are_sums_over_cycles (t : task) (responses : list pydict)
    (pc : play_context) (script : nat → reboot_env) (res : pydict)
    (w' : world) :
  async_val t = 0%Z →
  run boolean t responses (initial pc script) = (Ok res, w') →
  cycles (trace w') ≠ [] →
  Forall (λ c, integer_counts c = true) (cycles (trace w')) →
  res !! "found_update_count" =
    Some (VInt (total "found_update_count" (cycles (trace w')))) ∧
  res !! "installed_update_count" =
    Some (VInt (total "installed_update_count" (cycles (trace w')))).
Proof.
  intros Hz Hrun Hne Hints.
  destruct (run_inv boolean _ _ _ _ _ Hrun)
    as [[-> _]|(r & rs & -> & [(_ & ? & ->)|(c & Hc & [[? ->]|
         (Hle & o1 & Hloop & ?)])])]; try rewrite Hz in *; simplify_eq/=.
  - apply Forall_cons in Hints as [[Hf Hi]%andb_prop _].
    unfold total; simpl. rewrite !Z.add_0_r.
    revert Hf Hi.
    unfold integer_count, count_of, aggregate, first_state, py_get; simpl.
    destruct (r !! "found_update_count") as [[]|] eqn:?,
             (r !! "installed_update_count") as [[]|] eqn:?;
      intros; simplify_map_eq; done.
  - destruct o1 as [st'| |]; simplify_eq/=.
    pose proof (counts_inv_loop (timeout_of t) rs (first_state r c) st'
                  (cycled r (initial pc script))) as Hinv.
    rewrite Hloop in Hinv.
    destruct (aggregate_counts st') as [-> ->].
    destruct Hinv as [-> ->]; [|done|done|done].
    intros [[Hf Hi]%andb_prop _]%Forall_cons.
    unfold total; simpl. rewrite !Z.add_0_r.
    revert Hf Hi. unfold integer_count, count_of, py_get.
    by destruct (r !! "found_update_count") as [[]|],
                (r !! "installed_update_count") as [[]|].
Qed.

End Counts.

(** ** Repeated failures *)

Lemma repeated_failure_last (cs : list pydict) (c : pydict) (k : nat)
    (c1 c2 : pydict) :
  no_repeated_failure cs →
  (cs ++ [c]) !! k = Some c1 → (cs ++ [c]) !! S k = Some c2 →
  failed_cycle c1 = true → failed_cycle c2 = true →
  length (cs ++ [c]) = S (S k) ∧ c2 = c ∧ last cs = Some c1.
Proof.
  intros Hno H1 H2 Hf1 Hf2.
  pose proof (lookup_lt_Some _ _ _ H2) as Hlt.
  rewrite length_app in *; simpl in *.
  destruct (decide (S k < length cs)) as [Hin|Hout].
  - exfalso. rewrite lookup_app_l in H1, H2 by lia.
    by apply (Hno k c1 c2 H1 H2).
  - assert (S k = length cs) as Hk by lia.
    rewrite lookup_app_l in H1 by lia.
    rewrite lookup_app_r, <- Hk, Nat.sub_diag in H2 by lia.
    simpl in H2. repeat split; [lia|congruence|].
    rewrite last_lookup, <- Hk. done.
Qed.

Lemma no_repeated_failure_snoc (cs : list pydict) (c : pydict) :
  no_repeated_failure cs →
  from_option failed_cycle false (last cs) && failed_cycle c = false →
  no_repeated_failure (cs ++ [c]).
Proof.
  intros Hno Hlast k c1 c2 H1 H2 [Hf1 Hf2].
  destruct (repeated_failure_last cs c k c1 c2) as (_ & -> & Hl); try done.
  rewrite Hl in Hlast; simpl in Hlast. by rewrite Hf1, Hf2 in Hlast.
Qed.

Lemma failure_post_of_inv (st : loop_state) (w : world)
    (o : outcome loop_state) :
  failure_inv st w →
  o ≠ Stuck →
  (∀ st', o = Ok st' → result st' = result st) →
  (∀ e, o = Raise e → loop_condition (result st) = Raise e) →
  failure_post o w.
Proof.
  intros (cs & Hcs & _ & Hno) Hns Hok Hraise k c1 c2 H1 H2 Hf1 Hf2.
  rewrite Hcs in *.
  destruct (repeated_failure_last cs (result st) k c1 c2)
    as (? & -> & _); try done.
  repeat split; [done|done|done|]. intros e He. left. by apply Hraise.
Qed.

Lemma failure_post_vacuous (o : outcome loop_state) (w : world) :
  no_repeated_failure (cycles (trace w)) → failure_post o w.
Proof.
  intros Hno k c1 c2 H1 H2 Hf1 Hf2. exfalso. by apply (Hno k c1 c2 H1 H2).
Qed.

Lemma failure_inv_loop (reboot_timeout : pyval) (responses : list pydict)
    (st : loop_state) (w : world) :
  failure_inv st w →
  failure_post (reboot_loop reboot_timeout responses st w).1
               (reboot_loop reboot_timeout responses st w).2.
Proof.
  apply (reboot_loop_rule failure_inv failure_post reboot_timeout).
  - intros st' w' e HI He.
    apply (failure_post_of_inv st'); [done|done|done|by intros ? [= <-]].
  - intros st' w' HI _.
    apply (failure_post_of_inv st'); [done|done|by intros ? [= <-]|done].
  - clear. intros st w HI _.
    rewrite check_and_reboot_spec. destruct (guard_breaks st) eqn:Hguard.
    { apply (failure_post_of_inv st); [done|done|by intros ? [= <-]|done]. }
    rewrite reboot_if_required_spec; simpl.
    set (st0 := set_previously_errored _ st).
    destruct HI as (cs & Hcs & Hprev & Hno).
    assert (no_repeated_failure (cycles (trace w))) as Hno'.
    { rewrite Hcs. apply no_repeated_failure_snoc; [done|].
      rewrite <- Hprev. unfold guard_breaks in Hguard.
      by rewrite andb_comm. }
    assert (no_repeated_failure (cycles (trace (rebooted reboot_timeout w))))
      as Hno''.
    { unfold rebooted; simpl.
      by rewrite cycles_app, cycles_reboot_events, app_nil_r. }
    assert (∀ st1 w1 r,
              cycles (trace w1) = cycles (trace w) →
              result st1 = result st →
              previously_errored st1 = failed_cycle (result st) →
              match merged r st1 with
              | Ok st2 => failure_inv st2 (cycled r w1)
              | Raise e => failure_post (Raise e) (cycled r w1)
              | Stuck => failure_post Stuck (cycled r w1)
              end) as Hmerge.
    { intros st1 w1 r Hw1 Hr1 Hp1.
      assert (cycles (trace (cycled r w1)) = (cs ++ [result st]) ++ [r])
        as Hcs'.
      { unfold cycled; simpl. by rewrite cycles_app, Hw1, Hcs. }
      rewrite Hcs in Hno'.
      destruct (merged r st1) as [st2|e|] eqn:Hm.
      - apply merged_Ok in Hm as (c & u & f & n & i & _ & _ & _ & _ & _ & ->).
        exists (cs ++ [result st]). rewrite Hcs', last_snoc. simpl.
        by rewrite Hp1.
      - intros k c1 c2 H1 H2 Hf1 Hf2. rewrite Hcs' in *.
        destruct (repeated_failure_last (cs ++ [result st]) r k c1 c2
                    Hno' H1 H2) as (? & -> & _); try done.
        repeat split; [done|done|done|]. intros e' [= <-]. eauto.
      - by apply merged_not_Stuck in Hm. }
    destruct (reboot_due (result st)).
    + destruct (reboot_outcome _) as [[]|e|]; [|destruct e; simpl|];
        try (by apply failure_post_vacuous).
      split; [by apply failure_post_vacuous|]. intros r.
      apply Hmerge; [|done..]. unfold rebooted; simpl.
      by rewrite cycles_app, cycles_reboot_events, app_nil_r.
    + split; [by apply failure_post_vacuous|]. intros r.
      by apply Hmerge.
Qed.

Lemma aggregate_failed_msg (a : Z) (st : loop_state) :
  aggregate a st !! "failed" = result st !! "failed" ∧
  aggregate a st !! "msg" = result st !! "msg".
Proof.
  unfold aggregate. destruct (a =? 0)%Z; [|done].
  by rewrite !lookup_insert_ne.
Qed.

(** C3.  Two failures in a row do not always end with the second one
    surfaced.  The first answer below fails with one update found, so
    the loop is entered and the module is run again; the second answer
    fails too and, as a failing module may, leaves the counts out.  The
    condition of the loop (lines 199-201) reads
    [result['installed_update_count']] before the check for a repeated
    failure is reached, and [run] ends with [KeyError] instead of a
    result that carries the second failure.  With the counts in the
    second answer the same run returns that failure. *)
Theorem repeated_failure_without_counts_raises :
  let first := failure "first" (answer (VBool false) 1 0 false) in
  let second : pydict :=
    {[ "changed" := VBool false; "failed" := VBool true;
       "msg" := VStr "second" ]} in
  let second_with_counts :=
    failure "second" (answer (VBool false) 1 0 false) in
  let start := initial plain_context calm_host in
  failed_cycle first = true ∧
  failed_cycle second = true ∧
  cycles (trace (run bool_only reboot_task [first; second] start).2) =
    [first; second] ∧
  (run bool_only reboot_task [first; second] start).1 =
    Raise (KeyError "installed_update_count") ∧
  is_Ok (run bool_only reboot_task [first; second_with_counts] start).1
    = true ∧
  value_of ∅ (run bool_only reboot_task [first; second_with_counts] start).1
    !! "failed" = Some (VBool true) ∧
  value_of ∅ (run bool_only reboot_task [first; second_with_counts] start).1
    !! "msg" = Some (VStr "second").
Proof. cbv zeta. repeat apply conj; evaluate. Qed.

(** ** A reboot that fails *)

Lemma failing_event_is_last (l pre post : list event) (ev ev' : event) :
  Forall (λ ev, event_failure ev = None) l →
  l ++ [ev] = pre ++ ev' :: post →
  event_failure ev' ≠ None →
  pre = l ∧ ev' = ev ∧ post = [].
Proof.
  intros Hl. revert pre.
  induction Hl as [|a l Ha Hl IH]; intros pre Heq Hne; simpl in Heq.
  - destruct pre as [|x [|y pre]]; simplify_eq/=; done.
  - destruct pre as [|x pre]; simplify_eq/=.
    destruct (IH pre) as (-> & -> & ->); done.
Qed.

Lemma reboot_post_vacuous (o : outcome loop_state) (w : world) :
  Forall (λ ev, event_failure ev = None) (trace w) → reboot_post o w.
Proof.
  intros Hall pre ev post m Heq Hev. exfalso.
  rewrite Heq in Hall. apply Forall_app in Hall as [_ Hall].
  apply Forall_cons in Hall as [Hall _]. congruence.
Qed.

Lemma reboot_events_Ok (t : pyval) (pc : play_context) (env : reboot_env) :
  reboot_outcome env = Ok tt →
  Forall (λ ev, event_failure ev = None) (reboot_events t pc env).
Proof.
  unfold reboot_outcome, reboot_events.
  destruct (plugin_failure (reboot_answer env)) eqn:Hr; [done|].
  destruct (probe_escapes (probe_answer env)); [done|].
  destruct (plugin_failure (wait_answer env)) eqn:Hw; [done|].
  intros _. by repeat constructor.
Qed.

Lemma reboot_events_Raise (t : pyval) (pc : play_context) (env : reboot_env)
    (e : exn) :
  reboot_outcome env = Raise e →
  ∃ evs ev, reboot_events t pc env = evs ++ [ev] ∧
            Forall (λ ev, event_failure ev = None) evs ∧
            (event_failure ev = Some e ∨
             (event_failure ev = None ∧ is_AnsibleError e = None)).
Proof.
  unfold reboot_outcome, reboot_events.
  destruct (plugin_failure (reboot_answer env)) as [e1|] eqn:Hr.
  { intros [= <-]. exists [], (EvReboot t (reboot_answer env)). eauto. }
  destruct (probe_escapes (probe_answer env)) as [e2|] eqn:Hp.
  { intros [= <-].
    exists [EvReboot t (reboot_answer env)],
           (EvProbe (elevated pc) (probe_answer env)).
    split; [done|]. split; [by repeat constructor|]. right. split; [done|].
    unfold probe_escapes in Hp. destruct (probe_answer env) as [|e']; [done|].
    destruct e'; simplify_eq/=; done. }
  destruct (plugin_failure (wait_answer env)) as [e3|] eqn:Hw; [|done].
  intros [= <-].
  exists [EvReboot t (reboot_answer env);
          EvProbe (elevated pc) (probe_answer env)],
         (EvWait (wait_answer env)).
  split; [done|]. split; [by repeat constructor|]. by left.
Qed.

Lemma reboot_inv_merged (r : pydict) (st st' : loop_state) (w : world) :
  Forall (λ ev, event_failure ev = None) (trace w) →
  merged r st = Ok st' → reboot_inv st' (cycled r w).
Proof.
  intros Hall (c & u & f & n & i & _ & _ & _ & _ & _ & ->)%merged_Ok.
  unfold reboot_inv, cycled; cbn [trace result]. split.
  - apply Forall_app. split; [done|]. by repeat constructor.
  - rewrite cycles_app. cbn [cycles]. by rewrite last_snoc.
Qed.

Lemma reboot_inv_loop (reboot_timeout : pyval) (responses : list pydict)
    (st : loop_state) (w : world) :
  reboot_inv st w →
  reboot_post (reboot_loop reboot_timeout responses st w).1
              (reboot_loop reboot_timeout responses st w).2.
Proof.
  apply (reboot_loop_rule reboot_inv reboot_post reboot_timeout).
  - intros st' w' e [Hall _] _. by apply reboot_post_vacuous.
  - intros st' w' [Hall _] _. by apply reboot_post_vacuous.
  - clear. intros st w [Hall Hlast] _.
    rewrite check_and_reboot_spec. destruct (guard_breaks st).
    { by apply reboot_post_vacuous. }
    rewrite reboot_if_required_spec; simpl.
    destruct (reboot_due (result st)).
    + destruct (reboot_outcome _) as [[]|e|] eqn:Hout.
      * assert (Forall (λ ev, event_failure ev = None)
                  (trace (rebooted reboot_timeout w))) as Hall'.
        { unfold rebooted; simpl. apply Forall_app. split; [done|].
          by apply reboot_events_Ok. }
        split; [by apply reboot_post_vacuous|]. intros r.
        destruct (merged r _) eqn:Hm.
        -- by eapply reboot_inv_merged.
        -- apply reboot_post_vacuous. unfold cycled; simpl.
           apply Forall_app. split; [done|]. by repeat constructor.
        -- by apply merged_not_Stuck in Hm.
      * destruct (reboot_events_Raise reboot_timeout (context w) _ e Hout)
          as (evs & ev & Hevs & Hok & Hev).
        assert (∀ o, (∀ m, e = AnsibleError m →
                        ∃ st', o = Ok st' ∧
                               result st' = reboot_failure (result st) m) →
                     reboot_post o (rebooted reboot_timeout w)) as Hpost.
        { intros o Ho pre ev' post m Heq Hev'.
          unfold rebooted in Heq; simpl in Heq.
          rewrite Hevs, app_assoc in Heq.
          destruct (failing_event_is_last (trace w ++ evs) pre post ev ev')
            as (-> & -> & ->); [by apply Forall_app|done|congruence|].
          split; [done|].
          destruct Hev as [Hev|[Hev _]]; [|congruence].
          assert (e = AnsibleError m) as He by congruence.
          destruct (Ho m He) as (st' & -> & Hres).
          exists (result st), st'. split; [|done].
          rewrite cycles_app.
          assert (cycles evs = []) as ->; [|by rewrite app_nil_r].
          pose proof (cycles_reboot_events reboot_timeout (context w)
                        (reboot_script w (reboot_count w))) as Hc.
          rewrite Hevs, cycles_app in Hc. by apply app_eq_nil in Hc as [? _]. }
        destruct e; simpl; apply Hpost; intros m' [= <-]; eauto.
      * apply reboot_post_vacuous. unfold rebooted; simpl.
        exfalso. revert Hout. unfold reboot_outcome.
        by repeat case_match.
    + split; [by apply reboot_post_vacuous|]. intros r.
      destruct (merged r _) eqn:Hm.
      * by eapply reboot_inv_merged.
      * apply reboot_post_vacuous. unfold cycled; simpl.
        apply Forall_app. split; [done|]. by repeat constructor.
      * by apply merged_not_Stuck in Hm.
Qed.

Section RebootFailure.

Variable boolean : pyval → string + bool.

(** C7.  In every run of the plugin, from a world in which nothing has
    happened: if a call of [win_reboot] or of [wait_for_connection]
    answered that it failed, with a message [m], then that call is the
    last thing the plugin did (no run of the module follows it), and the
    plugin returns a result in which [failed] is true and [msg] is
    [Failed to reboot remote host when <reason>: <m>], where the reason
    names the trigger found in the last answer of the module: that a
    reboot was required before more updates can be installed, or that it
    was required to finalise the install. *)
Theorem failed_reboot_aborts_loop (t : task) (responses : list pydict)
    (pc : play_context) (script : nat → reboot_env) (o : outcome pydict)
    (w' : world) (pre post : list event) (ev : event) (m : string) :
  run boolean t responses (initial pc script) = (o, w') →
  trace w' = pre ++ ev :: post →
  event_failure ev = Some (AnsibleError m) →
  post = [] ∧
  ∃ c res,
    last (cycles pre) = Some c ∧
    o = Ok res ∧
    res !! "failed" = Some (VBool true) ∧
    res !! "msg" =
      Some (VStr ("Failed to reboot remote host when " +:+
                  reboot_reason c +:+ ": " +:+ m)).
Proof.
  intros Hrun Htrace Hev.
  destruct (run_inv boolean _ _ _ _ _ Hrun)
    as [[-> _]|(r & rs & -> & [(_ & ? & ->)|(c & Hc & [[? ->]|
         (Hle & o1 & Hloop & ?)])])]; simplify_eq/=.
  - by destruct pre.
  - destruct pre as [|? [|]]; simplify_eq/=.
  - destruct pre as [|? [|]]; simplify_eq/=.
  - pose proof (reboot_inv_loop (timeout_of t) rs (first_state r c)
                  (cycled r (initial pc script))) as Hpost.
    rewrite Hloop in Hpost. simpl in Hpost.
    destruct (Hpost) with (pre := pre) (ev := ev) (post := post) (m := m)
      as (-> & c' & st' & Hlast & -> & Hres); try done.
    { split; [by repeat constructor|done]. }
    split; [done|]. exists c', (aggregate (async_val t) st').
    split; [done|]. split; [done|].
    destruct (aggregate_failed_msg (async_val t) st') as [-> ->].
    rewrite Hres. unfold reboot_failure. by simplify_map_eq.
Qed.

End RebootFailure.

(** ** Category names given as one text *)

Lemma split_not_nil (sep : Ascii.ascii) (s : string) : split sep s ≠ [].
Proof.
  destruct s as [|c s]; simpl; [done|].
  destruct (Ascii.eqb c sep); [done|]. by destruct (split sep s).
Qed.

Lemma split_free (sep : Ascii.ascii) (s : string) :
  free_of sep s = true → split sep s = [s].
Proof.
  induction s as [|c s IH]; simpl; [done|].
  intros [Hc Hs]%andb_prop. apply negb_true_iff in Hc. rewrite Hc.
  by rewrite (IH Hs).
Qed.

Lemma split_app_sep (sep : Ascii.ascii) (s rest : string) :
  free_of sep s = true →
  split sep (s +:+ String sep rest) = s :: split sep rest.
Proof.
  induction s as [|c s IH]; simpl.
  - intros _. by rewrite Ascii.eqb_refl.
  - intros [Hc Hs]%andb_prop. apply negb_true_iff in Hc. rewrite Hc.
    by rewrite (IH Hs).
Qed.

Lemma split_concat (sep : Ascii.ascii) (l : list string) :
  l ≠ [] → Forall (λ s, free_of sep s = true) l →
  split sep (String.concat (String sep EmptyString) l) = l.
Proof.
  intros Hne Hall. induction Hall as [|s l Hs Hl IH]; [done|].
  destruct l as [|s' l].
  - by apply split_free.
  - change (String.concat (String sep EmptyString) (s :: s' :: l)) with
      (s +:+ String sep (String.concat (String sep EmptyString) (s' :: l))).
    rewrite split_app_sep by done. f_equal. by apply IH.
Qed.

Lemma free_of_app (sep : Ascii.ascii) (s1 s2 : string) :
  free_of sep (s1 +:+ s2) = free_of sep s1 && free_of sep s2.
Proof.
  induction s1 as [|c s1 IH]; simpl; [done|]. by rewrite IH, andb_assoc.
Qed.

Lemma all_space_free_of_comma (s : string) :
  all_space s = true → free_of "," s = true.
Proof.
  induction s as [|c s IH]; simpl; [done|].
  intros [Hc Hs]%andb_prop. rewrite (IH Hs), andb_true_r.
  destruct (Ascii.eqb_spec c ","); [by subst|done].
Qed.

Lemma lstrip_app_space (pre s : string) :
  all_space pre = true → lstrip (pre +:+ s) = lstrip s.
Proof.
  induction pre as [|c pre IH]; simpl; [done|].
  intros [-> Hs]%andb_prop. by apply IH.
Qed.

Lemma lstrip_all_space (s : string) :
  all_space s = true → lstrip s = EmptyString.
Proof.
  induction s as [|c s IH]; simpl; [done|].
  intros [-> Hs]%andb_prop. by apply IH.
Qed.

Lemma rstrip_all_space (s : string) :
  all_space s = true → rstrip s = EmptyString.
Proof.
  induction s as [|c s IH]; simpl; [done|].
  intros [-> Hs]%andb_prop. by rewrite (IH Hs).
Qed.

Lemma rstrip_app_space (s post : string) :
  all_space post = true → rstrip (s +:+ post) = rstrip s.
Proof.
  intros Hpost. induction s as [|c s IH]; simpl.
  - by apply rstrip_all_space.
  - by rewrite IH.
Qed.

Lemma length_lstrip (s : string) :
  String.length (lstrip s) ≤ String.length s.
Proof.
  induction s as [|c s IH]; simpl; [done|].
  destruct (is_space c); simpl; lia.
Qed.

Lemma lstrip_fixed_app (s post : string) :
  lstrip s = s → s ≠ EmptyString → lstrip (s +:+ post) = s +:+ post.
Proof.
  destruct s as [|c s]; [done|]; simpl. intros Hs _.
  destruct (is_space c); [|done].
  pose proof (length_lstrip s) as Hlen. rewrite Hs in Hlen. simpl in Hlen. lia.
Qed.

Lemma strip_padded (pre name post : string) :
  all_space pre = true → all_space post = true →
  lstrip name = name → rstrip name = name →
  strip (pre +:+ name +:+ post) = name.
Proof.
  intros Hpre Hpost Hl Hr. unfold strip.
  rewrite lstrip_app_space by done.
  destruct name as [|c name].
  - simpl. by rewrite lstrip_all_space.
  - rewrite lstrip_fixed_app by done. by rewrite rstrip_app_space.
Qed.

Lemma valid_category_shape (name : string) :
  name ∈ valid_categories →
  free_of "," name = true ∧ lstrip name = name ∧ rstrip name = name.
Proof.
  unfold valid_categories. rewrite !elem_of_cons, elem_of_nil.
  intros H. repeat (destruct H as [->|H]; [by vm_compute|]). done.
Qed.

Lemma _validate_categories_valid (names : list string) :
  Forall (λ n, n ∈ valid_categories) names →
  _validate_categories names = Ok tt.
Proof.
  induction 1 as [|n names Hn Hall IH]; simpl; [done|].
  by rewrite bool_decide_eq_true_2.
Qed.

Lemma character_is_no_category (c : Ascii.ascii) :
  String c EmptyString ∉ valid_categories.
Proof.
  unfold valid_categories. rewrite !not_elem_of_cons.
  repeat split; try discriminate. apply not_elem_of_nil.
Qed.

(** C10, as the code has it.  An [AnsibleUnicode] text made of known
    category names, each one possibly with white space around it, joined
    by commas, gives the same list of names as the list itself does; it
    passes [_validate_categories]; and [run] does on it what it does on
    the list.  A text of another class is not split: when it is not
    empty, [_validate_categories] refuses it for its first character. *)
Theorem category_text_accepted_as_list
    (items : list (string * string * string)) :
  items ≠ [] →
  Forall (λ i, all_space i.1.1 = true ∧ i.1.2 ∈ valid_categories ∧
               all_space i.2 = true) items →
  let text := String.concat "," (padded <$> items) in
  let names := (λ i, i.1.2) <$> items in
  category_list (Some (CategoryText text)) =
    category_list (Some (CategoryList names)) ∧
  _validate_categories (category_list (Some (CategoryText text))) = Ok tt ∧
  (∀ boolean t responses w,
     run boolean (with_categories (CategoryText text) t) responses w =
     run boolean (with_categories (CategoryList names) t) responses w) ∧
  (∀ c s,
     _validate_categories (category_list (Some (CategoryStr (String c s)))) =
       Raise (AnsibleError (unknown_category_message (String c EmptyString)))).
Proof.
  intros Hne Hall text names.
  assert (category_list (Some (CategoryText text)) = names) as Heq.
  { unfold category_list, text, names.
    rewrite split_concat.
    - rewrite <- list_fmap_compose. apply Forall_fmap_ext_1.
      eapply Forall_impl; [exact Hall|].
      intros [[pre name] post] (Hpre & Hname & Hpost); simpl in *.
      destruct (valid_category_shape name Hname) as (_ & Hl & Hr).
      by apply strip_padded.
    - by destruct items.
    - apply Forall_fmap. eapply Forall_impl; [exact Hall|].
      intros [[pre name] post] (Hpre & Hname & Hpost); simpl in *.
      destruct (valid_category_shape name Hname) as (Hf & _ & _).
      unfold padded; simpl. rewrite !free_of_app, Hf.
      by rewrite !all_space_free_of_comma. }
  split; [done|]. split; [|split].
  - rewrite Heq. apply _validate_categories_valid.
    unfold names. apply Forall_fmap. eapply Forall_impl; [exact Hall|].
    by intros [[pre name] post] (_ & Hname & _).
  - intros boolean t responses w. unfold run; simpl.
    fold (category_list (Some (CategoryText text))). by rewrite Heq.
  - intros c s. unfold category_list, characters; simpl.
    rewrite bool_decide_eq_false_2 by apply character_is_no_category.
    done.
Qed.

(** C10, as the spec has it, fails: a text that is not an
    [AnsibleUnicode] is not split on commas.  The names that are accepted
    as a list are refused as such a text, for its first character, and
    [run] returns a failed result without running the module. *)
Lemma plain_text_is_not_split :
  _validate_categories (category_list (Some (CategoryList ["Updates"; "Tools"])))
    = Ok tt ∧
  category_list (Some (CategoryStr "Updates,Tools")) =
    ["U"; "p"; "d"; "a"; "t"; "e"; "s"; ","; "T"; "o"; "o"; "l"; "s"] ∧
  _validate_categories (category_list (Some (CategoryStr "Updates,Tools"))) =
    Raise (AnsibleError (unknown_category_message "U")) ∧
  run bool_only (Task (Some (CategoryStr "Updates,Tools")) None None None 0 ∅)
    [answer (VBool false) 0 0 false] (initial plain_context calm_host) =
    (Ok (fail_with ∅ (unknown_category_message "U")),
     initial plain_context calm_host).
Proof. repeat apply conj; vm_compute; reflexivity. Qed.

(** ** What triggers a reboot *)

(** C1, as the code has it.  The part of an iteration that comes before
    the module is run again calls [win_reboot] once when the check for a
    repeated failure lets the iteration go on and [reboot_required] of the
    result at hand is true, and not at all otherwise: [msg] plays no part
    in whether the host is rebooted.  What [msg] decides is the reason
    given when that reboot fails: the iteration then leaves the loop with
    [failed] true and the message
    [Failed to reboot remote host when <reason>: <error>], the reason
    being that a reboot was required before more updates can be installed
    when [msg] is exactly the sentinel, and that it was required to
    finalise the update install otherwise. *)
Theorem reboot_iff_reboot_required (reboot_timeout : pyval)
    (st : loop_state) (w : world) :
  reboots (trace (check_and_reboot reboot_timeout st w).2) =
    reboots (trace w) +
    (if negb (truthy (py_get (result st) "failed" (VBool false)) &&
              previously_errored st) &&
        truthy (py_get (result st) "reboot_required" (VBool false))
     then 1 else 0)
  ∧
  ∀ exc,
    truthy (py_get (result st) "failed" (VBool false)) &&
      previously_errored st = false →
    truthy (py_get (result st) "reboot_required" (VBool false)) = true →
    reboot_outcome (reboot_script w (reboot_count w)) =
      Raise (AnsibleError exc) →
    ∃ st',
      (check_and_reboot reboot_timeout st w).1 = Ok (Break st') ∧
      result st' !! "failed" = Some (VBool true) ∧
      result st' !! "msg" =
        Some (VStr ("Failed to reboot remote host when " +:+
                    (if eq_text (py_get (result st) "msg" (VStr ""))
                          "A reboot is required before more updates can be installed"
                     then "reboot was required before more updates can be installed"
                     else "reboot was required to finalise update install")
                    +:+ ": " +:+ exc)).
Proof.
  split.
  - rewrite check_and_reboot_spec. fold (guard_breaks st).
    destruct (guard_breaks st); simpl; [lia|].
    rewrite reboot_if_required_spec; simpl. fold (reboot_due (result st)).
    destruct (reboot_due (result st)); simpl; [|lia].
    by rewrite reboots_app, reboots_reboot_events.
  - intros exc Hguard Hdue Hout.
    rewrite check_and_reboot_spec. fold (guard_breaks st) in Hguard.
    rewrite Hguard, reboot_if_required_spec; simpl.
    fold (reboot_due (result st)) in Hdue. rewrite Hdue, Hout; simpl.
    eexists. split; [done|]. simpl.
    unfold reboot_failure, reboot_reason, reboot_sentinel.
    split; by simplify_map_eq.
Qed.

Lemma reboot_iff_reboot_required_witness :
  let st := first_state
              (failure "A reboot is required before more updates can be installed"
                 (answer (VBool false) 1 0 true)) (VBool false) in
  ∃ st',
    (check_and_reboot (VInt 1200) st
       (initial plain_context stubborn_host)).1 = Ok (Break st') ∧
    result st' !! "failed" = Some (VBool true) ∧
    result st' !! "msg" =
      Some (VStr ("Failed to reboot remote host when " +:+
                  (if eq_text (py_get (result st) "msg" (VStr ""))
                        "A reboot is required before more updates can be installed"
                   then "reboot was required before more updates can be installed"
                   else "reboot was required to finalise update install")
                  +:+ ": " +:+ "timed out")).
Proof.
  intros st.
  apply (proj2 (reboot_iff_reboot_required (VInt 1200) st
                  (initial plain_context stubborn_host)) "timed out");
    vm_compute; reflexivity.
Defined.

(** C1, as the spec has it, fails: the message that stands for a pending
    reboot, in a result whose [reboot_required] is false, triggers no
    reboot; the loop runs the module again without calling
    [win_reboot]. *)
Lemma sentinel_alone_triggers_no_reboot :
  let first := <["msg" := VStr reboot_sentinel]> (answer (VBool false) 1 0 false) in
  let second := answer (VBool false) 0 0 false in
  let end_ := run bool_only reboot_task [first; second]
                (initial plain_context calm_host) in
  py_get first "msg" (VStr "") = VStr reboot_sentinel ∧
  loop_condition first = Ok true ∧
  cycles (trace end_.2) = [first; second] ∧
  reboots (trace end_.2) = 0 ∧
  trace end_.2 = [EvCycle first; EvCycle second].
Proof. cbv zeta. repeat apply conj; evaluate. Qed.

(** ** The example of two cycles *)

Section Example.

Variable boolean : pyval → string + bool.

Lemma run_enters_loop (t : task) (r : pydict) (rs : list pydict) (w : world)
    (c : pyval) :
  _validate_categories (category_list (arg_category_names t)) = Ok tt →
  eq_text (default (VStr "installed") (arg_state t)) "installed" = true →
  boolean (default (VBool false) (arg_reboot t)) = inr true →
  is_int (timeout_of t) = true →
  (async_val t ≤ 0)%Z →
  check_mode (context w) = false →
  r !! "changed" = Some c →
  run boolean t (r :: rs) w =
    (outcome_map (aggregate (async_val t))
       (reboot_loop (timeout_of t) rs (first_state r c) (cycled r w)).1,
     (reboot_loop (timeout_of t) rs (first_state r c) (cycled r w)).2).
Proof.
  intros Hcat Hstate Hreboot Htimeout Hasync Hcheck Hc.
  unfold run, _run_win_updates, py_index. fold (timeout_of t).
  rewrite Hcat, Hstate, Hreboot, Htimeout.
  unfold_monad; simpl.
  replace (0 <? async_val t)%Z with false by (symmetry; apply Z.ltb_ge; lia).
  simpl. rewrite Hc, Hcheck; simpl. fold (cycled r w). fold (first_state r c).
  by destruct (reboot_loop _ _ _ _) as [[]?].
Qed.

(** C2, as the code has it.  After the second answer of the example the
    condition of the loop is still true, for 5 updates were installed; the
    module is run a third time, and when that run finds and installs
    nothing and asks for no reboot the loop ends, with 5 found, 5
    installed and [changed] true. *)
Theorem example_ends_after_third_cycle (changed1 : pyval)
    (pc : play_context) (script : nat → reboot_env) (rest : list pydict) :
  boolean (VBool true) = inr true →
  check_mode pc = false →
  reboot_outcome (script 0) = Ok tt →
  let cycle1 := answer changed1 5 0 true in
  let cycle2 := answer (VBool true) 0 5 false in
  let cycle3 := answer (VBool false) 0 0 false in
  loop_condition cycle2 = Ok true ∧
  loop_condition cycle3 = Ok false ∧
  ∃ res w',
    run boolean reboot_task (cycle1 :: cycle2 :: cycle3 :: rest)
      (initial pc script) = (Ok res, w') ∧
    cycles (trace w') = [cycle1; cycle2; cycle3] ∧
    reboots (trace w') = 1 ∧
    res !! "found_update_count" = Some (VInt 5) ∧
    res !! "installed_update_count" = Some (VInt 5) ∧
    res !! "changed" = Some (VBool true).
Proof.
  intros Hbool Hcheck Hreboot cycle1 cycle2 cycle3.
  split; [by vm_compute|]. split; [by vm_compute|].
  rewrite (run_enters_loop reboot_task cycle1 _ _ changed1);
    [|by vm_compute|done|done|done|done|done|by vm_compute].
  (* first iteration: the reboot, then the second run *)
  rewrite reboot_loop_unfold.
  replace (loop_condition (result (first_state cycle1 changed1)))
    with (Ok (A:=bool) true) by (by vm_compute).
  rewrite check_and_reboot_spec.
  replace (guard_breaks (first_state cycle1 changed1)) with false
    by (by vm_compute).
  rewrite reboot_if_required_spec.
  replace (reboot_due _) with true by (by vm_compute).
  cbn [reboot_count cycled initial reboot_script]. rewrite Hreboot.
  destruct (merged cycle2 _) as [st2| |] eqn:Hm2; [|by vm_compute in Hm2..].
  apply merged_Ok in Hm2
    as (c2 & u2 & f2 & n2 & i2 & Hc2 & Hu2 & Hf2 & Hn2 & Hi2 & ->).
  vm_compute in Hc2, Hu2, Hf2, Hn2, Hi2. simplify_eq.
  (* second iteration: no reboot, then the third run *)
  rewrite reboot_loop_unfold. cbn [result].
  replace (loop_condition cycle2) with (Ok (A:=bool) true) by (by vm_compute).
  rewrite check_and_reboot_spec.
  replace (guard_breaks _) with false by (by vm_compute).
  rewrite reboot_if_required_spec. cbn [result set_previously_errored].
  replace (reboot_due cycle2) with false by (by vm_compute).
  destruct (merged cycle3 _) as [st3| |] eqn:Hm3; [|by vm_compute in Hm3..].
  apply merged_Ok in Hm3
    as (c3 & u3 & f3 & n3 & i3 & Hc3 & Hu3 & Hf3 & Hn3 & Hi3 & ->).
  vm_compute in Hc3, Hu3, Hf3, Hn3, Hi3. simplify_eq.
  (* the condition is false on the third answer *)
  rewrite reboot_loop_unfold. cbn [result].
  replace (loop_condition cycle3) with (Ok (A:=bool) false) by (by vm_compute).
  eexists _, _. split; [done|]. cbn [snd fst trace cycled rebooted].
  rewrite !cycles_app, !reboots_app, cycles_reboot_events,
    reboots_reboot_events.
  split; [done|]. split; [done|].
  unfold aggregate; simpl. by simplify_map_eq.
Qed.

End Example.

(** C2, as the spec has it, fails: on the two answers of the example the
    condition of the loop is true after the second one, the loop asks for
    a third run, and with a third answer three runs are made. *)
Lemma example_second_cycle_is_not_last :
  let cycle1 := answer (VBool false) 5 0 true in
  let cycle2 := answer (VBool true) 0 5 false in
  let cycle3 := answer (VBool false) 0 0 false in
  loop_condition cycle2 = Ok true ∧
  (run bool_only reboot_task [cycle1; cycle2]
     (initial plain_context calm_host)).1 = Stuck ∧
  cycles (trace (run bool_only reboot_task [cycle1; cycle2; cycle3]
                   (initial plain_context calm_host)).2) =
    [cycle1; cycle2; cycle3].
Proof. cbv zeta. repeat apply conj; evaluate. Qed.

(** ** Answers without the optional fields *)

(** C6.  The condition of the loop reads its three fields without a
    default: an answer of the module that leaves one of them out makes
    [run] raise [KeyError] when reboots are asked for, while the same
    answer is completed with empty mappings and zero counts when they are
    not. *)
Theorem absent_field_raises_KeyError :
  let bare : pydict := {[ "changed" := VBool false ]} in
  let start := initial plain_context calm_host in
  (run bool_only reboot_task [bare] start).1 =
    Raise (KeyError "installed_update_count") ∧
  (run bool_only reboot_task
     [<["installed_update_count" := VInt 0]> bare] start).1 =
    Raise (KeyError "found_update_count") ∧
  (run bool_only reboot_task
     [<["found_update_count" := VInt 0]>
        (<["installed_update_count" := VInt 0]> bare)] start).1 =
    Raise (KeyError "reboot_required") ∧
  (run bool_only (Task None None None None 0 ∅) [bare] start).1 =
    Ok {[ "changed" := VBool false;
          "updates" := VDict ∅;
          "filtered_updates" := VDict ∅;
          "found_update_count" := VInt 0;
          "installed_update_count" := VInt 0 ]}.
Proof. cbv zeta. repeat apply conj; evaluate. Qed.

(** ** The busy probe *)

(** C9.  However the [win_shell] call of the busy probe ends (it returns,
    it raises an exception that is swallowed, or it raises one that is
    not), the play context after the probe is the play context before it:
    [become], [become_method] and [become_user] have their former values
    and no other field has changed.  The call itself was made as
    [SYSTEM] through [runas], and the same holds of the whole of
    [_reboot_server]. *)
Theorem probe_restores_play_context (answer : probe_outcome) (w : world)
    (reboot_timeout : pyval) :
  let after := (busy_probe answer w).2 in
  context after = context w ∧
  become (context after) = become (context w) ∧
  become_method (context after) = become_method (context w) ∧
  become_user (context after) = become_user (context w) ∧
  reboot_script after = reboot_script w ∧
  reboot_count after = reboot_count w ∧
  trace after =
    trace w ++
    [EvProbe (PlayContext (Some true) (Some "runas") (Some "SYSTEM")
                (check_mode (context w)) (other_attributes (context w)))
       answer] ∧
  (busy_probe answer w).1 =
    match answer with
    | ProbeReturned _ => Ok tt
    | ProbeRaised e => if is_Exception e then Ok tt else Raise e
    end ∧
  context (_reboot_server reboot_timeout w).2 = context w.
Proof.
  rewrite busy_probe_spec, _reboot_server_spec; simpl.
  repeat split. by destruct answer as [|[]].
Qed.

(** ** Merging two mappings *)

(** C5.  The mapping [_merge_dict] makes of [original] and [new] has the
    keys of both, gives to a key of [new] the value [new] gives it, and to
    any other key the value [original] gives it.  On objects: the result
    is a new object with these contents, and every object that was there
    before, the two arguments included (they may be one object), has the
    contents it had. *)
Theorem merge_is_last_write_wins_union :
  (∀ original new : gmap string string,
     ∃ both, _merge_dict (VDict original) (VDict new) = Ok (VDict both) ∧
       dom both = dom original ∪ dom new ∧
       (∀ k v, new !! k = Some v → both !! k = Some v) ∧
       (∀ k, new !! k = None → both !! k = original !! k)) ∧
  (∀ (h : Store.store) (original new : Store.location)
     (o n : gmap string string),
     h !! original = Some o → h !! new = Some n →
     ∃ dict_var h',
       Store._merge_dict original new h = Some (dict_var, h') ∧
       h !! dict_var = None ∧
       _merge_dict (VDict o) (VDict n) = Ok (VDict (default ∅ (h' !! dict_var))) ∧
       h' !! original = Some o ∧
       h' !! new = Some n ∧
       ∀ l, l ≠ dict_var → h' !! l = h !! l).
Proof.
  split.
  - intros original new. exists (new ∪ original). split; [done|].
    split; [|split].
    + rewrite dom_union_L. apply (comm_L (∪)).
    + intros k v Hk. by apply lookup_union_Some_l.
    + intros k Hk. by apply lookup_union_r.
  - intros h original new o n Ho Hn.
    unfold Store._merge_dict, Store.copy, Store.update.
    rewrite Ho; simpl.
    set (l := fresh (dom h)).
    assert (h !! l = None) as Hl.
    { apply not_elem_of_dom. apply is_fresh. }
    assert (l ≠ original) as Hlo by (intros ->; congruence).
    assert (l ≠ new) as Hln by (intros ->; congruence).
    rewrite lookup_insert_eq; simpl.
    rewrite lookup_insert_ne by done. rewrite Hn; simpl.
    eexists _, _. split; [done|]. split; [done|].
    rewrite insert_insert_eq, lookup_insert_eq; simpl.
    split; [done|].
    rewrite !lookup_insert_ne by done.
    repeat split; try done. intros l' Hl'. by rewrite lookup_insert_ne.
Qed.

(** ** The properties at work on sample inputs *)

Lemma pairing {A B} (p : A * B) : p = (p.1, p.2).
Proof. by destruct p. Qed.

Lemma changed_iff_cycle_changed_or_reboot_witness :
  let end_ := run bool_only reboot_task example_answers
                (initial plain_context calm_host) in
  let st := first_state (answer (VBool true) 1 0 false) (VBool true) in
  (truthy (py_get (value_of ∅ end_.1) "changed" (VBool false)) = true ↔
     (∃ c, c ∈ cycles (trace end_.2) ∧
           truthy (py_get c "changed" (VBool false)) = true)
     ∨ 0 < reboots (trace end_.2)) ∧
  truthy (py_get (aggregate 0 st) "changed" (VBool false)) = true.
Proof.
  intros end_ st. split.
  - apply (proj1 (changed_iff_cycle_changed_or_reboot bool_only) reboot_task
             example_answers plain_context calm_host).
    + vm_compute. discriminate.
    + apply returned. vm_compute. reflexivity.
    + evaluate.
  - apply (proj2 (changed_iff_cycle_changed_or_reboot bool_only)
             (VInt 1200) st (initial plain_context calm_host)).
    vm_compute. reflexivity.
Defined.

Lemma counts_are_sums_over_cycles_witness :
  let end_ := run bool_only reboot_task example_answers
                (initial plain_context calm_host) in
  value_of ∅ end_.1 !! "found_update_count" =
    Some (VInt (total "found_update_count" (cycles (trace end_.2)))) ∧
  value_of ∅ end_.1 !! "installed_update_count" =
    Some (VInt (total "installed_update_count" (cycles (trace end_.2)))).
Proof.
  intros end_.
  apply (counts_are_sums_over_cycles bool_only reboot_task example_answers
           plain_context calm_host).
  - reflexivity.
  - apply returned. vm_compute. reflexivity.
  - evaluate.
  - evaluate.
Defined.


Lemma failed_reboot_aborts_loop_witness :
  let first := answer (VBool false) 5 0 true in
  let end_ := run bool_only reboot_task [first; answer (VBool true) 0 5 false]
                (initial plain_context stubborn_host) in
  [] = @nil event ∧
  ∃ c res,
    last (cycles [EvCycle first]) = Some c ∧
    end_.1 = Ok res ∧
    res !! "failed" = Some (VBool true) ∧
    res !! "msg" =
      Some (VStr ("Failed to reboot remote host when " +:+
                  reboot_reason c +:+ ": " +:+ "timed out")).
Proof.
  intros first end_.
  apply (failed_reboot_aborts_loop bool_only reboot_task
           [first; answer (VBool true) 0 5 false] plain_context stubborn_host
           end_.1 end_.2 [EvCycle first] []
           (EvReboot (VInt 1200) (plugin_failed "timed out")) "timed out").
  - apply pairing.
  - evaluate.
  - vm_compute. reflexivity.
Defined.

Lemma category_text_accepted_as_list_witness :
  let text := "CriticalUpdates, SecurityUpdates ,Updates" in
  let names := ["CriticalUpdates"; "SecurityUpdates"; "Updates"] in
  category_list (Some (CategoryText text)) =
    category_list (Some (CategoryList names)) ∧
  _validate_categories (category_list (Some (CategoryText text))) = Ok tt ∧
  (∀ boolean t responses w,
     run boolean (with_categories (CategoryText text) t) responses w =
     run boolean (with_categories (CategoryList names) t) responses w) ∧
  (∀ c s,
     _validate_categories (category_list (Some (CategoryStr (String c s)))) =
       Raise (AnsibleError (unknown_category_message (String c EmptyString)))).
Proof.
  apply (category_text_accepted_as_list
           [ ("", "CriticalUpdates", ""); (" ", "SecurityUpdates", " ");
             ("", "Updates", "") ]).
  - discriminate.
  - repeat constructor; vm_compute; reflexivity.
Defined.

Lemma example_ends_after_third_cycle_witness :
  loop_condition (answer (VBool true) 0 5 false) = Ok true ∧
  loop_condition (answer (VBool false) 0 0 false) = Ok false ∧
  ∃ res w',
    run bool_only reboot_task example_answers
      (initial plain_context calm_host) = (Ok res, w') ∧
    cycles (trace w') = example_answers ∧
    reboots (trace w') = 1 ∧
    res !! "found_update_count" = Some (VInt 5) ∧
    res !! "installed_update_count" = Some (VInt 5) ∧
    res !! "changed" = Some (VBool true).
Proof.
  apply (example_ends_after_third_cycle bool_only (VBool false) plain_context
           calm_host []); reflexivity.
Defined.

Lemma merge_is_last_write_wins_union_witness :
  let o : gmap string string := {[ "KB1" := "old"; "KB2" := "kept" ]} in
  let n : gmap string string := {[ "KB1" := "new"; "KB3" := "added" ]} in
  let h : Store.store := {[ 1%positive := o; 2%positive := n ]} in
  (∃ both, _merge_dict (VDict o) (VDict n) = Ok (VDict both) ∧
     dom both = dom o ∪ dom n ∧
     (∀ k v, n !! k = Some v → both !! k = Some v) ∧
     (∀ k, n !! k = None → both !! k = o !! k)) ∧
  ∃ dict_var h',
    Store._merge_dict 1%positive 2%positive h = Some (dict_var, h') ∧
    h !! dict_var = None ∧
    _merge_dict (VDict o) (VDict n) =
      Ok (VDict (default ∅ (h' !! dict_var))) ∧
    h' !! 1%positive = Some o ∧
    h' !! 2%positive = Some n ∧
    ∀ l, l ≠ dict_var → h' !! l = h !! l.
Proof.
  intros o n h. split.
  - apply (proj1 merge_is_last_write_wins_union o n).
  - apply (proj2 merge_is_last_write_wins_union h 1%positive 2%positive o n);
      vm_compute; reflexivity.
Defined.

(** * More on the plugin *)

(** ** The checks made before the module is run *)

Lemma _validate_categories_cases (names : list string) :
  _validate_categories names = Ok tt ∨
  (∃ n, n ∈ names ∧ (n ∉ valid_categories) ∧
        _validate_categories names =
          Raise (AnsibleError (unknown_category_message n))).
Proof.
  induction names as [|name names IH]; simpl; [by left|].
  case_bool_decide as Hname.
  - destruct IH as [IH|(n & Hn & Hbad & IH)]; [by left|].
    right. exists n. rewrite elem_of_cons. eauto.
  - right. exists name. rewrite elem_of_cons. eauto.
Qed.

(** X1.  [_validate_categories] returns exactly when every name is one of
    the twelve known categories; otherwise it raises [AnsibleError] with
    the message of the first name that is not, whatever comes after
    it. *)
Theorem validate_categories_accepts_iff_known (names : list string) :
  (_validate_categories names = Ok tt ↔
     Forall (λ n, n ∈ valid_categories) names) ∧
  (∀ pre n post,
     names = pre ++ n :: post →
     Forall (λ n, n ∈ valid_categories) pre →
     n ∉ valid_categories →
     _validate_categories names =
       Raise (AnsibleError (unknown_category_message n))).
Proof.
  split.
  - split; [|apply _validate_categories_valid].
    induction names as [|name names IH]; simpl; [done|].
    case_bool_decide as Hname; [|done]. intros H. constructor; auto.
  - intros pre n post -> Hpre Hn.
    induction Hpre as [|p pre Hp Hpre IH]; simpl.
    + by rewrite bool_decide_eq_false_2.
    + by rewrite bool_decide_eq_true_2.
Qed.

Lemma validate_categories_accepts_iff_known_witness :
  _validate_categories ["Updates"; "Drivers"; "Bogus"] =
    Raise (AnsibleError (unknown_category_message "Drivers")).
Proof.
  apply (proj2 (validate_categories_accepts_iff_known
                  ["Updates"; "Drivers"; "Bogus"]) ["Updates"] "Drivers"
           ["Bogus"]).
  - reflexivity.
  - repeat constructor.
  - evaluate.
Defined.

Lemma split_snoc_sep (sep : Ascii.ascii) (s : string) :
  ∃ p ps, split sep (s +:+ String sep EmptyString) =
            (p :: ps) ++ [EmptyString].
Proof.
  induction s as [|c s (p & ps & IH)]; simpl.
  - rewrite Ascii.eqb_refl. by exists EmptyString, [].
  - rewrite IH. destruct (Ascii.eqb c sep).
    + by exists EmptyString, (p :: ps).
    + by exists (String c p), ps.
Qed.

Lemma _validate_categories_rejects (names : list string) :
  (∃ n, _validate_categories names =
          Raise (AnsibleError (unknown_category_message n))) ↔
  ∃ n, n ∈ names ∧ n ∉ valid_categories.
Proof.
  split.
  - intros [n Hn].
    destruct (_validate_categories_cases names)
      as [Hok|(n' & Hin & Hbad & _)]; [congruence|eauto].
  - intros (n & Hin & Hbad).
    destruct (_validate_categories_cases names)
      as [Hok|(n' & _ & _ & Hr)]; [|eauto].
    exfalso. revert Hin Hbad Hok. clear.
    induction names as [|name names IH]; simpl.
    + by intros ?%elem_of_nil.
    + intros [->|Hin]%elem_of_cons Hbad; case_bool_decide; try done.
      intros. by apply IH.
Qed.

(** X2.  A [category_names] text of the class [AnsibleUnicode], the one
    kind of text [run] splits, is refused exactly when one of the pieces
    between its commas, stripped of white space, is not a known category;
    so such a text that ends with a comma is always refused, its last
    piece being empty. *)
Theorem category_text_refused_iff_bad_piece (text : string) :
  ((∃ n, _validate_categories (category_list (Some (CategoryText text))) =
           Raise (AnsibleError (unknown_category_message n))) ↔
   ∃ piece, piece ∈ split "," text ∧ strip piece ∉ valid_categories) ∧
  ∃ n, _validate_categories
         (category_list (Some (CategoryText (text +:+ ",")))) =
       Raise (AnsibleError (unknown_category_message n)).
Proof.
  split.
  - rewrite _validate_categories_rejects. unfold category_list.
    split.
    + intros (n & (piece & -> & Hin)%list_elem_of_fmap & Hbad). eauto.
    + intros (piece & Hin & Hbad). exists (strip piece). split; [|done].
      apply list_elem_of_fmap. eauto.
  - apply _validate_categories_rejects. exists EmptyString. split.
    + unfold category_list.
      destruct (split_snoc_sep "," text) as (p & ps & ->).
      rewrite fmap_app. apply elem_of_app. right. set_solver.
    + evaluate.
Qed.

Section Checks.

Variable boolean : pyval → string + bool.

Lemma run_validated (t : task) (b : bool) (responses : list pydict)
    (w : world) :
  validated boolean t b →
  run boolean t responses w =
    match responses with
    | [] => (Stuck, w)
    | r :: rs =>
        match r !! "changed" with
        | None => (Raise (KeyError "changed"), cycled r w)
        | Some c =>
            if loop_enabled t b (context w)
            then (outcome_map (aggregate (async_val t))
                    (reboot_loop (timeout_of t) rs (first_state r c)
                       (cycled r w)).1,
                  (reboot_loop (timeout_of t) rs (first_state r c)
                     (cycled r w)).2)
            else (Ok (aggregate (async_val t) (first_state r c)), cycled r w)
        end
    end.
Proof.
  intros (Hcat & Hstate & Hreboot & Htimeout & Hasync).
  unfold run, _run_win_updates, py_index, loop_enabled.
  fold (timeout_of t) (state_option t) (reboot_option t).
  rewrite Hcat, Hreboot, Htimeout.
  assert (eq_text (state_option t) "installed" ||
          eq_text (state_option t) "searched" = true) as ->.
  { by destruct Hstate as [-> | ->]. }
  assert (b && (0 <? async_val t)%Z = false) as ->.
  { destruct b; [|done]. simpl. apply Z.ltb_ge. auto. }
  unfold_monad; simpl.
  destruct responses as [|r rs]; [done|]. simpl.
  fold (cycled r w). destruct (r !! "changed") as [c|]; [|done]. simpl.
  fold (first_state r c).
  destruct (b && _ && _); [|done].
  by destruct (reboot_loop _ _ _ _) as [[]?].
Qed.

(** X3.  When a category name is not known, [run] returns the result of
    the base class with [failed] true and the message for the first such
    name, whatever the other options are, and nothing is called on the
    host. *)
Theorem run_refuses_unknown_category (t : task) (responses : list pydict)
    (w : world) (pre post : list string) (n : string) :
  category_list (arg_category_names t) = pre ++ n :: post →
  Forall (λ n, n ∈ valid_categories) pre →
  n ∉ valid_categories →
  run boolean t responses w =
    (Ok (<["msg" := VStr (unknown_category_message n)]>
           (<["failed" := VBool true]> (base_result t))), w).
Proof.
  intros Hnames Hpre Hn. unfold run. rewrite Hnames.
  assert (_validate_categories (pre ++ n :: post) =
          Raise (AnsibleError (unknown_category_message n))) as ->.
  { clear Hnames. induction Hpre as [|p pre Hp Hpre IH]; simpl.
    - by rewrite bool_decide_eq_false_2.
    - by rewrite bool_decide_eq_true_2. }
  by unfold_monad.
Qed.

(** X4.  When the categories are known, the other checks are made in
    this order, and each one that fails ends [run] with [failed] true and
    its own message, nothing being called on the host: the state is
    neither [installed] nor [searched]; [reboot] is not a boolean;
    [reboot_timeout] is not an integer; reboots are asked for on an
    asynchronous task. *)
Theorem run_refuses_bad_options (t : task) (responses : list pydict)
    (w : world) :
  _validate_categories (category_list (arg_category_names t)) = Ok tt →
  (eq_text (state_option t) "installed" = false →
   eq_text (state_option t) "searched" = false →
   run boolean t responses w =
     (Ok (fail_with (base_result t)
            "state must be either installed or searched"), w)) ∧
  ((state_option t = VStr "installed" ∨ state_option t = VStr "searched") →
   (∀ exc, boolean (reboot_option t) = inl exc →
      run boolean t responses w =
        (Ok (fail_with (base_result t)
               ("cannot parse reboot as a boolean: " +:+ exc)), w)) ∧
   (∀ b, boolean (reboot_option t) = inr b →
      is_int (timeout_of t) = false →
      run boolean t responses w =
        (Ok (fail_with (base_result t)
               "reboot_timeout must be an integer"), w)) ∧
   (boolean (reboot_option t) = inr true →
    is_int (timeout_of t) = true →
    (0 < async_val t)%Z →
    run boolean t responses w =
      (Ok (fail_with (base_result t)
             "async is not supported for this task when reboot=yes"), w))).
Proof.
  intros Hcat. unfold run.
  fold (timeout_of t) (state_option t) (reboot_option t). rewrite Hcat.
  split.
  - intros -> ->. by unfold_monad.
  - intros Hstate.
    assert (eq_text (state_option t) "installed" ||
            eq_text (state_option t) "searched" = true) as ->.
    { by destruct Hstate as [-> | ->]. }
    repeat split.
    + intros exc ->. by unfold_monad.
    + intros b -> ->. by unfold_monad.
    + intros -> -> Hasync%Z.ltb_lt. rewrite Hasync. by unfold_monad.
Qed.

End Checks.

Lemma run_refuses_unknown_category_witness :
  run bool_only
    (Task (Some (CategoryText "Updates,Drivers")) (Some (VStr "bogus"))
       None None 0 ∅)
    [] (initial plain_context calm_host) =
    (Ok (<["msg" := VStr (unknown_category_message "Drivers")]>
           (<["failed" := VBool true]> ∅)),
     initial plain_context calm_host).
Proof.
  apply (run_refuses_unknown_category bool_only
           (Task (Some (CategoryText "Updates,Drivers")) (Some (VStr "bogus"))
              None None 0 ∅) [] (initial plain_context calm_host)
           ["Updates"] [] "Drivers").
  - vm_compute. reflexivity.
  - repeat constructor.
  - evaluate.
Defined.

Lemma run_refuses_bad_options_witness :
  let start := initial plain_context calm_host in
  run bool_only (Task None (Some (VStr "absent")) None None 0 ∅) [] start =
    (Ok (fail_with ∅ "state must be either installed or searched"), start) ∧
  run bool_only (Task None None (Some (VStr "maybe")) None 0 ∅) [] start =
    (Ok (fail_with ∅ ("cannot parse reboot as a boolean: " +:+
                      "The value is not a valid boolean.")), start) ∧
  run bool_only (Task None None None (Some (VStr "10")) 0 ∅) [] start =
    (Ok (fail_with ∅ "reboot_timeout must be an integer"), start) ∧
  run bool_only (Task None None (Some (VBool true)) None 30 ∅) [] start =
    (Ok (fail_with ∅ "async is not supported for this task when reboot=yes"),
     start).
Proof.
  intros start. repeat apply conj.
  - apply (proj1 (run_refuses_bad_options bool_only
                    (Task None (Some (VStr "absent")) None None 0 ∅) [] start
                    eq_refl)); reflexivity.
  - apply (proj1 (proj2 (run_refuses_bad_options bool_only
                    (Task None None (Some (VStr "maybe")) None 0 ∅) [] start
                    eq_refl) (or_introl eq_refl))). reflexivity.
  - apply (proj1 (proj2 (proj2 (run_refuses_bad_options bool_only
                    (Task None None None (Some (VStr "10")) 0 ∅) [] start
                    eq_refl) (or_introl eq_refl))) false); reflexivity.
  - apply (proj2 (proj2 (proj2 (run_refuses_bad_options bool_only
                    (Task None None (Some (VBool true)) None 30 ∅) [] start
                    eq_refl) (or_introl eq_refl)))); reflexivity.
Defined.

(** ** Runs of the module without the loop *)

Section SingleRun.

Variable boolean : pyval → string + bool.

(** X5.  On options that pass the checks, when reboots are not asked
    for, or the state is [searched], or the play is in check mode, or
    the first answer of the module has nothing installed, nothing found
    and no reboot required, the module is run exactly once and nothing
    else is called on the host.  When [async_val] is 0 the answer is
    returned with the five aggregate keys written: [changed] as the
    answer has it, and the other four as the answer has them or with
    their defaults.  When [async_val] is not 0 the answer is returned as
    it is. *)
Theorem run_makes_a_single_module_run (t : task) (b : bool) (r : pydict)
    (rs : list pydict) (c : pyval) (w : world) :
  validated boolean t b →
  r !! "changed" = Some c →
  loop_enabled t b (context w) = false ∨ loop_condition r = Ok false →
  ∃ res,
    run boolean t (r :: rs) w =
      (Ok res,
       World (context w) (reboot_script w) (reboot_count w)
             (trace w ++ [EvCycle r])) ∧
    (async_val t = 0%Z →
     res =
       <["installed_update_count" :=
           py_get r "installed_update_count" (VInt 0)]>
         (<["found_update_count" := py_get r "found_update_count" (VInt 0)]>
            (<["filtered_updates" :=
                 py_get r "filtered_updates" (VDict ∅)]>
               (<["updates" := py_get r "updates" (VDict ∅)]>
                  (<["changed" := c]> r))))) ∧
    (async_val t ≠ 0%Z → res = r).
Proof.
  intros Hvalid Hc Hskip.
  exists (aggregate (async_val t) (first_state r c)). split.
  - rewrite (run_validated boolean t b) by done.
    rewrite Hc. fold (cycled r w).
    destruct (loop_enabled t b (context w)); [|done].
    destruct Hskip as [|Hcond]; [done|].
    rewrite reboot_loop_unfold. cbn [result first_state]. by rewrite Hcond.
  - unfold aggregate. split.
    + by intros ->.
    + intros Hasync%Z.eqb_neq. by rewrite Hasync.
Qed.

(** X6.  On an asynchronous task (reboots cannot then be asked for) the
    answer of the module is returned as it is: no key is added or
    changed. *)
Theorem asynchronous_run_returns_raw_answer (t : task) (b : bool)
    (r : pydict) (rs : list pydict) (c : pyval) (w : world) :
  validated boolean t b →
  (0 < async_val t)%Z →
  r !! "changed" = Some c →
  run boolean t (r :: rs) w = (Ok r, cycled r w).
Proof.
  intros Hvalid Hasync Hc. rewrite (run_validated boolean t b) by done.
  rewrite Hc.
  destruct Hvalid as (_ & _ & _ & _ & Hb).
  assert (b = false) as -> by (destruct b; [lia|done]).
  unfold loop_enabled, aggregate; simpl.
  by replace (async_val t =? 0)%Z with false by (symmetry; apply Z.eqb_neq; lia).
Qed.

(** X7.  [changed] is the one key the plugin reads without a default
    outside the loop: when the first answer of the module has none, [run]
    raises [KeyError] after the module has run, on every task that passes
    the checks. *)
Theorem first_answer_without_changed_raises (t : task) (b : bool)
    (r : pydict) (rs : list pydict) (w : world) :
  validated boolean t b →
  r !! "changed" = None →
  run boolean t (r :: rs) w = (Raise (KeyError "changed"), cycled r w).
Proof.
  intros Hvalid Hc. rewrite (run_validated boolean t b) by done.
  by rewrite Hc.
Qed.

(** X8.  Whatever [run] does and however it ends, the play context it
    leaves is the one it found, and so is what the host will do on later
    reboots: the elevation of the busy probe never outlives a call. *)
Theorem run_preserves_play_context (t : task) (responses : list pydict)
    (w : world) :
  context (run boolean t responses w).2 = context w ∧
  reboot_script (run boolean t responses w).2 = reboot_script w.
Proof.
  destruct (run boolean t responses w) as [o w'] eqn:Hrun.
  destruct (run_inv boolean _ _ _ _ _ Hrun)
    as [[-> _]|(r & rs & -> & [(_ & ? & ->)|(c & Hc & [[? ->]|
         (Hle & o1 & Hloop & ?)])])]; simplify_eq/=; try done.
  pose proof (reboot_loop_rule
    (λ _ w1, context w1 = context w ∧ reboot_script w1 = reboot_script w)
    (λ _ w1, context w1 = context w ∧ reboot_script w1 = reboot_script w)
    (timeout_of t)) as Hrule.
  specialize (Hrule (λ _ _ _ H _, H) (λ _ _ H _, H)).
  assert (∀ st w1,
    context w1 = context w ∧ reboot_script w1 = reboot_script w →
    loop_condition (result st) = Ok true →
    match check_and_reboot (timeout_of t) st w1 with
    | (Ok (Break _), w2) | (Raise _, w2) | (Stuck, w2) =>
        context w2 = context w ∧ reboot_script w2 = reboot_script w
    | (Ok (Proceed st1), w2) =>
        (context w2 = context w ∧ reboot_script w2 = reboot_script w) ∧
        ∀ r0, match merged r0 st1 with
              | Ok _ | Raise _ | Stuck =>
                  context (cycled r0 w2) = context w ∧
                  reboot_script (cycled r0 w2) = reboot_script w
              end
    end) as Hstep.
  { intros st w1 Hw1 _. rewrite check_and_reboot_spec.
    destruct (guard_breaks st); [done|].
    rewrite reboot_if_required_spec.
    destruct (reboot_due _); simpl.
    - destruct (reboot_outcome _) as [[]|e|]; [|destruct e; simpl|];
        try done; split; try done; intros r0; by destruct (merged r0 _).
    - split; [done|]. intros r0. by destruct (merged r0 _). }
  specialize (Hrule Hstep rs (first_state r c) (cycled r w)).
  rewrite Hloop in Hrule. by apply Hrule.
Qed.

End SingleRun.

Lemma run_makes_a_single_module_run_witness :
  let quiet := answer (VBool false) 0 0 false in
  ∃ res,
    run bool_only reboot_task [quiet; quiet]
      (initial plain_context calm_host) =
      (Ok res, World plain_context calm_host 0 [EvCycle quiet]) ∧
    (async_val reboot_task = 0%Z →
     res =
       <["installed_update_count" :=
           py_get quiet "installed_update_count" (VInt 0)]>
         (<["found_update_count" :=
              py_get quiet "found_update_count" (VInt 0)]>
            (<["filtered_updates" :=
                 py_get quiet "filtered_updates" (VDict ∅)]>
               (<["updates" := py_get quiet "updates" (VDict ∅)]>
                  (<["changed" := VBool false]> quiet))))) ∧
    (async_val reboot_task ≠ 0%Z → res = quiet).
Proof.
  intros quiet.
  apply (run_makes_a_single_module_run bool_only reboot_task true quiet
           [quiet] (VBool false) (initial plain_context calm_host)).
  - repeat split; try reflexivity. left. reflexivity.
  - reflexivity.
  - right. vm_compute. reflexivity.
Defined.

Lemma asynchronous_run_returns_raw_answer_witness :
  let busy := answer (VBool true) 3 3 true in
  run bool_only (Task None None None None 60 ∅) [busy]
    (initial plain_context calm_host) =
    (Ok busy, cycled busy (initial plain_context calm_host)).
Proof.
  intros busy.
  apply (asynchronous_run_returns_raw_answer bool_only
           (Task None None None None 60 ∅) false busy [] (VBool true)
           (initial plain_context calm_host)).
  - repeat split; try reflexivity; [left; reflexivity|discriminate].
  - reflexivity.
  - reflexivity.
Defined.

Lemma first_answer_without_changed_raises_witness :
  let bare : pydict := {[ "found_update_count" := VInt 0 ]} in
  run bool_only reboot_task [bare] (initial plain_context calm_host) =
    (Raise (KeyError "changed"),
     cycled bare (initial plain_context calm_host)).
Proof.
  intros bare.
  apply (first_answer_without_changed_raises bool_only reboot_task true bare
           [] (initial plain_context calm_host)).
  - repeat split; try reflexivity. left. reflexivity.
  - reflexivity.
Defined.

(** ** The calls of [_reboot_server] *)

(** X9.  When [win_reboot] answers that it failed, [_reboot_server]
    raises at once: neither the busy probe nor [wait_for_connection] is
    called, and the play context is not touched.  The exception is
    [AnsibleError] with the message of the answer, or [KeyError] when the
    answer has no [msg]. *)
Theorem failed_reboot_skips_probe_and_wait (reboot_timeout : pyval)
    (w : world) :
  let env := reboot_script w (reboot_count w) in
  pr_failed (reboot_answer env) = Some true →
  _reboot_server reboot_timeout w =
    (match pr_msg (reboot_answer env) with
     | Some m => Raise (AnsibleError m)
     | None => Raise (KeyError "msg")
     end,
     World (context w) (reboot_script w) (S (reboot_count w))
           (trace w ++ [EvReboot reboot_timeout (reboot_answer env)])).
Proof.
  intros env Hfailed. rewrite _reboot_server_spec.
  unfold reboot_outcome, rebooted, reboot_events, plugin_failure.
  fold env. rewrite Hfailed; simpl. by destruct (pr_msg _).
Qed.

Lemma failed_reboot_skips_probe_and_wait_witness :
  _reboot_server (VInt 1200) (initial plain_context stubborn_host) =
    (Raise (AnsibleError "timed out"),
     World plain_context stubborn_host 1
           [EvReboot (VInt 1200) (plugin_failed "timed out")]).
Proof.
  apply (failed_reboot_skips_probe_and_wait (VInt 1200)
           (initial plain_context stubborn_host)).
  reflexivity.
Defined.

(** X10.  When [win_reboot] succeeds and the busy probe raises an
    [Exception], the exception is dropped: [wait_for_connection] is still
    called, the outcome of [_reboot_server] is decided by its answer
    alone, and the play context is the one found.  The three calls are
    made in this order, the probe under the elevated context. *)
Theorem probe_exception_is_swallowed (reboot_timeout : pyval) (w : world)
    (e : exn) :
  let env := reboot_script w (reboot_count w) in
  default false (pr_failed (reboot_answer env)) = false →
  probe_answer env = ProbeRaised e →
  is_Exception e = true →
  _reboot_server reboot_timeout w =
    (failed_msg (wait_answer env),
     World (context w) (reboot_script w) (S (reboot_count w))
           (trace w ++
            [EvReboot reboot_timeout (reboot_answer env);
             EvProbe (PlayContext (Some true) (Some "runas") (Some "SYSTEM")
                        (check_mode (context w))
                        (other_attributes (context w))) (ProbeRaised e);
             EvWait (wait_answer env)])).
Proof.
  intros env Hok Hprobe He. rewrite _reboot_server_spec.
  unfold reboot_outcome, rebooted, reboot_events, plugin_failure at 1 3.
  fold env. rewrite Hok, Hprobe; simpl. rewrite He.
  rewrite failed_msg_spec. by destruct (plugin_failure (wait_answer env)).
Qed.

Lemma probe_exception_is_swallowed_witness :
  _reboot_server (VInt 1200) (initial plain_context flaky_probe_host) =
    (Ok tt,
     World plain_context flaky_probe_host 1
       [EvReboot (VInt 1200) plugin_ok;
        EvProbe (PlayContext (Some true) (Some "runas") (Some "SYSTEM")
                   false ∅) (ProbeRaised (OtherError "connection reset"));
        EvWait plugin_ok]).
Proof.
  apply (probe_exception_is_swallowed (VInt 1200)
           (initial plain_context flaky_probe_host)
           (OtherError "connection reset")); reflexivity.
Defined.

(** ** When the plugin reboots *)

Lemma snoc_eq_middle {A} (l pre post : list A) (x y : A) :
  l ++ [x] = pre ++ y :: post →
  (pre = l ∧ y = x ∧ post = []) ∨
  (∃ post', l = pre ++ y :: post' ∧ post = post' ++ [x]).
Proof.
  destruct post as [|z post _] using rev_ind.
  - intros [-> ->]%app_inj_tail. by left.
  - rewrite app_comm_cons, app_assoc.
    intros [-> ->]%app_inj_tail. right. by exists post.
Qed.

Lemma reboots_justified_snoc_other (tm : pyval) (tr : list event)
    (e : event) :
  reboots_justified tm tr →
  (∀ t a, e ≠ EvReboot t a) →
  reboots_justified tm (tr ++ [e]).
Proof.
  intros Htr He pre t a post Heq.
  apply snoc_eq_middle in Heq as [(_ & Hbad & _)|(post' & -> & _)].
  - by destruct (He t a).
  - by apply (Htr pre t a post').
Qed.

Lemma reboots_justified_snoc_reboot (tm : pyval) (tr : list event)
    (a : plugin_result) (c : pydict) :
  reboots_justified tm tr →
  last (cycles tr) = Some c → reboot_due c = true →
  reboots_justified tm (tr ++ [EvReboot tm a]).
Proof.
  intros Htr Hlast Hdue pre t a' post Heq.
  apply snoc_eq_middle in Heq as [(-> & [= -> ->] & _)|(post' & -> & _)].
  - eauto.
  - by apply (Htr pre t a' post').
Qed.

Lemma reboots_justified_reboot_events (tm : pyval) (tr : list event)
    (pc : play_context) (env : reboot_env) (c : pydict) :
  reboots_justified tm tr →
  last (cycles tr) = Some c → reboot_due c = true →
  reboots_justified tm (tr ++ reboot_events tm pc env).
Proof.
  intros Htr Hlast Hdue.
  pose proof (reboots_justified_snoc_reboot tm tr (reboot_answer env) c
                Htr Hlast Hdue) as H1.
  unfold reboot_events.
  destruct (plugin_failure (reboot_answer env)); [done|].
  pose proof (reboots_justified_snoc_other tm _
                (EvProbe (elevated pc) (probe_answer env)) H1) as H2.
  rewrite <- app_assoc in H2. simpl in H2.
  destruct (probe_escapes (probe_answer env)); [by apply H2|].
  pose proof (reboots_justified_snoc_other tm _ (EvWait (wait_answer env))
                (H2 ltac:(done))) as H3.
  rewrite <- app_assoc in H3. simpl in H3. by apply H3.
Qed.

Lemma justified_inv_loop (responses : list pydict) (st : loop_state)
    (w : world) (tm : pyval) :
  justified_inv tm st w →
  reboots_justified tm (trace (reboot_loop tm responses st w).2).
Proof.
  apply (reboot_loop_rule (justified_inv tm)
           (λ _ w, reboots_justified tm (trace w)) tm).
  - by intros st' w' e [? _] _.
  - by intros st' w' [? _] _.
  - clear. intros st w [Htr Hlast] _.
    rewrite check_and_reboot_spec. destruct (guard_breaks st); [done|].
    rewrite reboot_if_required_spec; simpl.
    assert (∀ w1 st1 r,
              reboots_justified tm (trace w1) →
              match merged r st1 with
              | Ok st2 => justified_inv tm st2 (cycled r w1)
              | Raise _ | Stuck => reboots_justified tm (trace (cycled r w1))
              end) as Hmerge.
    { intros w1 st1 r Hw1.
      assert (reboots_justified tm (trace (cycled r w1))) as Hj.
      { unfold cycled; simpl. by apply reboots_justified_snoc_other. }
      destruct (merged r st1) as [st2| |] eqn:Hm; [|done..].
      apply merged_Ok in Hm as (c & u & f & n & i & _ & _ & _ & _ & _ & ->).
      split; [done|]. unfold cycled; cbn [trace result].
      rewrite cycles_app. cbn [cycles]. by rewrite last_snoc. }
    destruct (reboot_due (result st)) eqn:Hdue.
    + assert (reboots_justified tm (trace (rebooted tm w))) as Hj.
      { unfold rebooted; simpl.
        by apply (reboots_justified_reboot_events tm _ _ _ (result st)). }
      destruct (reboot_outcome _) as [[]|e|]; [|destruct e; simpl|];
        try done.
      split; [done|]. intros r. by apply Hmerge.
    + split; [done|]. intros r. by apply Hmerge.
Qed.

Section Reboots.

Variable boolean : pyval → string + bool.

(** X11.  In every run of the plugin, from a world in which nothing has
    happened, each call of [win_reboot] is made with the task's
    [reboot_timeout] (1200 when it gives none) and comes after a run of
    the module whose answer has a true [reboot_required]: the plugin
    never reboots the host on its own account. *)
Theorem reboot_only_when_module_requires_it (t : task)
    (responses : list pydict) (pc : play_context)
    (script : nat → reboot_env) (o : outcome pydict) (w' : world)
    (pre post : list event) (tm : pyval) (a : plugin_result) :
  run boolean t responses (initial pc script) = (o, w') →
  trace w' = pre ++ EvReboot tm a :: post →
  tm = default (VInt 1200) (arg_reboot_timeout t) ∧
  ∃ c, last (cycles pre) = Some c ∧
       truthy (py_get c "reboot_required" (VBool false)) = true.
Proof.
  intros Hrun Htrace.
  destruct (run_inv boolean _ _ _ _ _ Hrun)
    as [[-> _]|(r & rs & -> & [(_ & ? & ->)|(c & Hc & [[? ->]|
         (Hle & o1 & Hloop & ?)])])]; simplify_eq/=.
  - by destruct pre.
  - destruct pre as [|? [|]]; simplify_eq/=.
  - destruct pre as [|? [|]]; simplify_eq/=.
  - pose proof (justified_inv_loop rs (first_state r c)
                  (cycled r (initial pc script)) (timeout_of t)) as Hj.
    rewrite Hloop in Hj. simpl in Hj.
    assert (justified_inv (timeout_of t) (first_state r c)
              (cycled r (initial pc script))) as Hinit.
    { split; [|done]. intros pre' t' a' post' Heq. simpl in Heq.
      destruct pre' as [|? [|]]; simplify_eq/=. }
    destruct (Hj Hinit pre tm a post Htrace) as [-> Hcycle].
    split; [done|]. exact Hcycle.
Qed.

End Reboots.

Lemma reboot_only_when_module_requires_it_witness :
  VInt 1200 = default (VInt 1200) (arg_reboot_timeout reboot_task) ∧
  ∃ c, last (cycles [EvCycle (answer (VBool false) 5 0 true)]) = Some c ∧
       truthy (py_get c "reboot_required" (VBool false)) = true.
Proof.
  apply (reboot_only_when_module_requires_it bool_only reboot_task
           example_answers plain_context calm_host
           (run bool_only reboot_task example_answers
              (initial plain_context calm_host)).1
           (run bool_only reboot_task example_answers
              (initial plain_context calm_host)).2
           [EvCycle (answer (VBool false) 5 0 true)]
           [EvProbe (elevated plain_context) (ProbeReturned ∅);
            EvWait plugin_ok;
            EvCycle (answer (VBool true) 0 5 false);
            EvCycle (answer (VBool false) 0 0 false)]
           (VInt 1200) plugin_ok).
  - apply pairing.
  - evaluate.
Defined.

(** ** The aggregate mappings *)

Lemma union_all_snoc (k : string) (cs : list pydict) (r : pydict) :
  union_all k (cs ++ [r]) = mapping_of k r ∪ union_all k cs.
Proof. unfold union_all. by rewrite foldl_app. Qed.

Lemma union_all_last_wins (k : string) (pre post : list pydict) (c : pydict)
    (key v : string) :
  mapping_of k c !! key = Some v →
  Forall (λ c', mapping_of k c' !! key = None) post →
  union_all k (pre ++ c :: post) !! key = Some v.
Proof.
  intros Hc. induction post as [|c' post IH] using rev_ind; intros Hpost.
  - rewrite union_all_snoc. by apply lookup_union_Some_l.
  - apply Forall_app in Hpost as [Hpost [Hc' _]%Forall_cons].
    rewrite app_comm_cons, app_assoc, union_all_snoc.
    rewrite lookup_union_r by done. by apply IH.
Qed.

Lemma _merge_dict_mapping (acc : gmap string string) (k : string)
    (r : pydict) :
  mapping_field k r = true →
  _merge_dict (VDict acc) (py_get r k (VDict ∅)) =
    Ok (VDict (mapping_of k r ∪ acc)).
Proof.
  unfold mapping_field, mapping_of, py_get.
  by destruct (r !! k) as [[]|].
Qed.

Lemma updates_inv_merged (r : pydict) (st st' : loop_state) (w : world) :
  updates_inv st w → merged r st = Ok st' → updates_inv st' (cycled r w).
Proof.
  unfold updates_inv.
  intros HI (c & u & f & n & i & _ & Hu & Hf & _ & _ & ->)%merged_Ok.
  unfold cycled; cbn [trace updates filtered_updates].
  rewrite cycles_app; cbn [cycles].
  intros [Hcs [Hr%andb_prop _]%Forall_cons]%Forall_app.
  destruct Hr as [Hru Hrf]. destruct (HI Hcs) as [Hupd Hfil].
  rewrite Hupd, (_merge_dict_mapping _ _ _ Hru) in Hu.
  rewrite Hfil, (_merge_dict_mapping _ _ _ Hrf) in Hf.
  rewrite !union_all_snoc. by simplify_eq.
Qed.

Lemma updates_inv_loop (reboot_timeout : pyval) (responses : list pydict)
    (st st' : loop_state) (w : world) :
  updates_inv st w →
  (reboot_loop reboot_timeout responses st w).1 = Ok st' →
  updates_inv st' (reboot_loop reboot_timeout responses st w).2.
Proof.
  intros HI. revert st'.
  apply (reboot_loop_rule updates_inv
           (λ o w, ∀ st', o = Ok st' → updates_inv st' w) reboot_timeout);
    [done| by intros; simplify_eq | | done].
  clear. intros st w HI _.
  rewrite check_and_reboot_spec. destruct (guard_breaks st).
  { by intros; simplify_eq. }
  rewrite reboot_if_required_spec; simpl.
  set (st0 := set_previously_errored _ st).
  assert (updates_inv st0 w) as HI0 by done.
  destruct (reboot_due (result st)).
  - assert (∀ r, updates_inv (set_changed (VBool true) (set_result r st0))
                   (rebooted reboot_timeout w)) as HI'.
    { intros r. unfold updates_inv, rebooted; simpl.
      by rewrite cycles_app, cycles_reboot_events, app_nil_r. }
    destruct (reboot_outcome _) as [[]|e|]; [|destruct e; simpl|done];
      try done.
    + split; [done|]. intros r.
      destruct (merged r _) eqn:Hm; [|done..].
      eapply updates_inv_merged; [|exact Hm]. apply (HI' (result st)).
    + intros; simplify_eq. apply HI'.
  - split; [done|]. intros r.
    destruct (merged r _) eqn:Hm; [|done..].
    eapply updates_inv_merged; [|exact Hm]. exact HI0.
Qed.

Lemma aggregate_updates (st : loop_state) :
  aggregate 0 st !! "updates" = Some (updates st) ∧
  aggregate 0 st !! "filtered_updates" = Some (filtered_updates st).
Proof. unfold aggregate; simpl. by simplify_map_eq. Qed.

Section Updates.

Variable boolean : pyval → string + bool.

(** X12.  When [run] returns after at least one run of the module, on a
    task that is not asynchronous, and [updates] and [filtered_updates]
    are mappings in the answers that have them, then each of the two in
    what is returned is the merge of those of all the runs made, in
    order: an update that an answer reports has, in the result, the
    metadata of the last answer that reports it. *)
Theorem updates_are_merged_over_cycles (t : task) (responses : list pydict)
    (pc : play_context) (script : nat → reboot_env) (res : pydict)
    (w' : world) :
  async_val t = 0%Z →
  run boolean t responses (initial pc script) = (Ok res, w') →
  cycles (trace w') ≠ [] →
  Forall (λ c, mapping_fields c = true) (cycles (trace w')) →
  res !! "updates" = Some (VDict (union_all "updates" (cycles (trace w')))) ∧
  res !! "filtered_updates" =
    Some (VDict (union_all "filtered_updates" (cycles (trace w')))) ∧
  ∀ k pre c post key v,
    k = "updates" ∨ k = "filtered_updates" →
    cycles (trace w') = pre ++ c :: post →
    mapping_of k c !! key = Some v →
    Forall (λ c', mapping_of k c' !! key = None) post →
    ∃ d, res !! k = Some (VDict d) ∧ d !! key = Some v.
Proof.
  intros Hz Hrun Hne Hmaps.
  assert (res !! "updates" =
            Some (VDict (union_all "updates" (cycles (trace w')))) ∧
          res !! "filtered_updates" =
            Some (VDict (union_all "filtered_updates" (cycles (trace w')))))
    as [Hu Hf].
  { destruct (run_inv boolean _ _ _ _ _ Hrun)
      as [[-> _]|(r & rs & -> & [(_ & ? & ->)|(c & Hc & [[? ->]|
           (Hle & o1 & Hloop & ?)])])]; try rewrite Hz in *; simplify_eq/=.
    - apply Forall_cons in Hmaps as [[Hu Hf]%andb_prop _].
      unfold union_all; simpl. rewrite !(right_id_L ∅ (∪)).
      revert Hu Hf.
      unfold mapping_field, mapping_of, aggregate, first_state, py_get; simpl.
      destruct (r !! "updates") as [[]|] eqn:?,
               (r !! "filtered_updates") as [[]|] eqn:?;
        intros; simplify_map_eq; done.
    - destruct o1 as [st'| |]; simplify_eq/=.
      pose proof (updates_inv_loop (timeout_of t) rs (first_state r c) st'
                    (cycled r (initial pc script))) as Hinv.
      rewrite Hloop in Hinv.
      destruct (aggregate_updates st') as [-> ->].
      destruct Hinv as [-> ->]; [|done|done|done].
      intros [[Hu Hf]%andb_prop _]%Forall_cons.
      unfold union_all; simpl. rewrite !(right_id_L ∅ (∪)).
      revert Hu Hf. unfold mapping_field, mapping_of, py_get.
      by destruct (r !! "updates") as [[]|],
                  (r !! "filtered_updates") as [[]|]. }
  split; [done|]. split; [done|].
  intros k pre c post key v [-> | ->] Hcs Hkey Hpost; eexists;
    (split; [done|]); rewrite Hcs; by apply union_all_last_wins.
Qed.

End Updates.

Lemma updates_are_merged_over_cycles_witness :
  let first := <["updates" := VDict {[ "KB1" := "found" ]}]>
                 (answer (VBool false) 1 0 true) in
  let second := <["updates" := VDict {[ "KB1" := "installed" ]}]>
                  (answer (VBool true) 0 0 false) in
  let end_ := run bool_only reboot_task [first; second]
                (initial plain_context calm_host) in
  value_of ∅ end_.1 !! "updates" =
    Some (VDict (union_all "updates" (cycles (trace end_.2)))) ∧
  value_of ∅ end_.1 !! "filtered_updates" =
    Some (VDict (union_all "filtered_updates" (cycles (trace end_.2)))) ∧
  ∀ k pre c post key v,
    k = "updates" ∨ k = "filtered_updates" →
    cycles (trace end_.2) = pre ++ c :: post →
    mapping_of k c !! key = Some v →
    Forall (λ c', mapping_of k c' !! key = None) post →
    ∃ d, value_of ∅ end_.1 !! k = Some (VDict d) ∧ d !! key = Some v.
Proof.
  intros first second end_.
  apply (updates_are_merged_over_cycles bool_only reboot_task [first; second]
           plain_context calm_host).
  - reflexivity.
  - apply returned. vm_compute. reflexivity.
  - evaluate.
  - evaluate.
Defined.

(** ** What the result returned is made of *)

Lemma last_cycle_of_last_event (tr : list event) (c : pydict) :
  last tr = Some (EvCycle c) → last (cycles tr) = Some c.
Proof.
  destruct tr as [|e tr _] using rev_ind; [done|].
  rewrite last_snoc. intros [= ->].
  rewrite cycles_app. cbn [cycles]. by rewrite last_snoc.
Qed.

Lemma reboot_events_failed (t : pyval) (pc : play_context) (env : reboot_env)
    (m : string) :
  reboot_outcome env = Raise (AnsibleError m) →
  ¬ Forall (λ ev, event_failure ev = None) (reboot_events t pc env).
Proof.
  intros Hout Hall.
  destruct (reboot_events_Raise t pc env _ Hout)
    as (evs & ev & Hevs & _ & [Hev|[_ Hno]]); [|done].
  rewrite Hevs in Hall. apply Forall_app in Hall as [_ Hall].
  apply Forall_cons in Hall as [Hall _]. congruence.
Qed.

Lemma last_run_inv_loop (reboot_timeout : pyval) (responses : list pydict)
    (st : loop_state) (w : world) :
  last_run_inv st w →
  last_run_post (reboot_loop reboot_timeout responses st w).1
                (reboot_loop reboot_timeout responses st w).2.
Proof.
  apply (reboot_loop_rule last_run_inv last_run_post reboot_timeout).
  - by intros st' w' e _ _ st'' Hst.
  - intros st' w' HI _ st'' [= <-] _. exact HI.
  - clear. intros st w HI _.
    rewrite check_and_reboot_spec. destruct (guard_breaks st).
    { intros st'' [= <-] _. exact HI. }
    rewrite reboot_if_required_spec; simpl.
    assert (∀ w1 st1 r,
              match merged r st1 with
              | Ok st2 => last_run_inv st2 (cycled r w1)
              | Raise e => last_run_post (Raise e) (cycled r w1)
              | Stuck => last_run_post Stuck (cycled r w1)
              end) as Hmerge.
    { intros w1 st1 r. destruct (merged r st1) as [st2| |] eqn:Hm;
        [|done..].
      apply merged_Ok in Hm as (c & u & f & n & i & _ & _ & _ & _ & _ & ->).
      unfold last_run_inv, cycled; cbn [trace result]. by rewrite last_snoc. }
    destruct (reboot_due (result st)).
    + destruct (reboot_outcome _) as [[]|e|] eqn:Hout;
        [|destruct e; simpl|]; try done.
      * split; [done|]. intros r. apply Hmerge.
      * intros st'' _ Hall. exfalso.
        unfold rebooted in Hall; simpl in Hall.
        apply Forall_app in Hall as [_ Hall].
        by apply (reboot_events_failed _ _ _ _ Hout) in Hall.
    + split; [done|]. intros r. apply Hmerge.
Qed.

Section LastRun.

Variable boolean : pyval → string + bool.

(** X13.  When [run] returns after at least one run of the module and no
    call of [win_reboot] or [wait_for_connection] has failed, the last
    thing the plugin did was to run the module, and what it returns is
    the answer of that run with at most the five aggregate keys
    replaced: [failed], [msg], [reboot_required] and every other key are
    those of the last run alone, nothing of an earlier answer is left.
    When [async_val] is not 0 not even these five are replaced. *)
Theorem result_is_last_answer_outside_aggregate_keys (t : task)
    (responses : list pydict) (pc : play_context)
    (script : nat → reboot_env) (res : pydict) (w' : world) :
  run boolean t responses (initial pc script) = (Ok res, w') →
  cycles (trace w') ≠ [] →
  Forall (λ ev, event_failure ev = None) (trace w') →
  ∃ c, last (trace w') = Some (EvCycle c) ∧
       (∀ k, k ∉ aggregate_keys → res !! k = c !! k) ∧
       (async_val t ≠ 0%Z → res = c).
Proof.
  intros Hrun Hne Hall.
  assert (∀ st, async_val t ≠ 0%Z → aggregate (async_val t) st = result st)
    as Hraw.
  { intros st Ha%Z.eqb_neq. unfold aggregate. by rewrite Ha. }
  assert (∀ a st k, k ∉ aggregate_keys →
            aggregate a st !! k = result st !! k) as Hagg.
  { intros a st k Hk. unfold aggregate. destruct (a =? 0)%Z; [|done].
    unfold aggregate_keys in Hk.
    rewrite !not_elem_of_cons in Hk.
    destruct Hk as (? & ? & ? & ? & ? & _).
    by rewrite !lookup_insert_ne. }
  destruct (run_inv boolean _ _ _ _ _ Hrun)
    as [[-> _]|(r & rs & -> & [(_ & ? & ->)|(c & Hc & [[? ->]|
         (Hle & o1 & Hloop & ?)])])]; simplify_eq/=.
  - exists r. split; [done|]. split; [|by apply (Hraw (first_state r c))].
    intros k Hk. by rewrite Hagg.
  - destruct o1 as [st'| |]; simplify_eq/=.
    pose proof (last_run_inv_loop (timeout_of t) rs (first_state r c)
                  (cycled r (initial pc script))) as Hpost.
    rewrite Hloop in Hpost. simpl in Hpost.
    exists (result st'). split; [by apply Hpost|]. split; [|by apply Hraw].
    intros k Hk. by rewrite Hagg.
Qed.

End LastRun.

Lemma result_is_last_answer_outside_aggregate_keys_witness :
  let end_ := run bool_only reboot_task
                (failure "first" (answer (VBool false) 1 0 false)
                 :: example_answers)
                (initial plain_context calm_host) in
  ∃ c, last (trace end_.2) = Some (EvCycle c) ∧
       (∀ k, k ∉ aggregate_keys → value_of ∅ end_.1 !! k = c !! k) ∧
       (async_val reboot_task ≠ 0%Z → value_of ∅ end_.1 = c).
Proof.
  intros end_.
  apply (result_is_last_answer_outside_aggregate_keys bool_only reboot_task
           (failure "first" (answer (VBool false) 1 0 false)
            :: example_answers) plain_context calm_host).
  - apply returned. vm_compute. reflexivity.
  - evaluate.
  - evaluate.
Defined.

(** ** Exceptions that [run] does not catch *)

Lemma escape_post_vacuous (o : outcome loop_state) (w : world) :
  Forall (λ ev, event_failure ev = None) (trace w) → escape_post o w.
Proof.
  intros Hall pre ev post e Heq Hev. exfalso.
  rewrite Heq in Hall. apply Forall_app in Hall as [_ Hall].
  apply Forall_cons in Hall as [Hall _]. congruence.
Qed.

Lemma escape_inv_loop (reboot_timeout : pyval) (responses : list pydict)
    (st : loop_state) (w : world) :
  Forall (λ ev, event_failure ev = None) (trace w) →
  escape_post (reboot_loop reboot_timeout responses st w).1
              (reboot_loop reboot_timeout responses st w).2.
Proof.
  apply (reboot_loop_rule
           (λ _ w, Forall (λ ev, event_failure ev = None) (trace w))
           escape_post reboot_timeout).
  - intros st' w' e Hall _. by apply escape_post_vacuous.
  - intros st' w' Hall _. by apply escape_post_vacuous.
  - clear. intros st w Hall _.
    rewrite check_and_reboot_spec. destruct (guard_breaks st).
    { by apply escape_post_vacuous. }
    rewrite reboot_if_required_spec; simpl.
    assert (∀ w1 st1 r,
              Forall (λ ev, event_failure ev = None) (trace w1) →
              match merged r st1 with
              | Ok _ =>
                  Forall (λ ev, event_failure ev = None) (trace (cycled r w1))
              | Raise e => escape_post (Raise e) (cycled r w1)
              | Stuck => escape_post Stuck (cycled r w1)
              end) as Hmerge.
    { intros w1 st1 r Hw1.
      assert (Forall (λ ev, event_failure ev = None) (trace (cycled r w1)))
        as Hall'.
      { unfold cycled; simpl. apply Forall_app. split; [done|].
        by repeat constructor. }
      destruct (merged r st1); [done|by apply escape_post_vacuous..]. }
    destruct (reboot_due (result st)).
    + destruct (reboot_outcome _) as [[]|e|] eqn:Hout.
      * assert (Forall (λ ev, event_failure ev = None)
                  (trace (rebooted reboot_timeout w))) as Hall'.
        { unfold rebooted; simpl. apply Forall_app. split; [done|].
          by apply reboot_events_Ok. }
        split; [by apply escape_post_vacuous|]. intros r. by apply Hmerge.
      * destruct (reboot_events_Raise reboot_timeout (context w) _ e Hout)
          as (evs & ev & Hevs & Hok & Hev).
        assert (∀ o, (is_AnsibleError e = None → o = Raise e) →
                     escape_post o (rebooted reboot_timeout w)) as Hpost.
        { intros o Ho pre ev' post e' Heq Hev' Hno.
          unfold rebooted in Heq; simpl in Heq.
          rewrite Hevs, app_assoc in Heq.
          destruct (failing_event_is_last (trace w ++ evs) pre post ev ev')
            as (-> & -> & ->); [by apply Forall_app|done|congruence|].
          split; [done|].
          destruct Hev as [Hev|[Hev _]]; [|congruence].
          assert (e' = e) as -> by congruence. by apply Ho. }
        destruct e; simpl; apply Hpost; done.
      * exfalso. revert Hout. unfold reboot_outcome. by repeat case_match.
    + split; [by apply escape_post_vacuous|]. intros r. by apply Hmerge.
Qed.

Section Escape.

Variable boolean : pyval → string + bool.

(** X14.  In every run of the plugin, from a world in which nothing has
    happened: if [win_reboot] or [wait_for_connection] answers that it
    failed and the answer has no [msg], reading the message raises
    [KeyError], which the [except AnsibleError] of [run] does not catch:
    [run] ends with that exception instead of a failed result, and the
    call is the last one made. *)
Theorem failed_answer_without_msg_escapes (t : task)
    (responses : list pydict) (pc : play_context)
    (script : nat → reboot_env) (o : outcome pydict) (w' : world)
    (pre post : list event) (ev : event) :
  run boolean t responses (initial pc script) = (o, w') →
  trace w' = pre ++ ev :: post →
  event_failure ev = Some (KeyError "msg") →
  post = [] ∧ o = Raise (KeyError "msg").
Proof.
  intros Hrun Htrace Hev.
  destruct (run_inv boolean _ _ _ _ _ Hrun)
    as [[-> _]|(r & rs & -> & [(_ & ? & ->)|(c & Hc & [[? ->]|
         (Hle & o1 & Hloop & ?)])])]; simplify_eq/=.
  - by destruct pre.
  - destruct pre as [|? [|]]; simplify_eq/=.
  - destruct pre as [|? [|]]; simplify_eq/=.
  - pose proof (escape_inv_loop (timeout_of t) rs (first_state r c)
                  (cycled r (initial pc script))) as Hpost.
    rewrite Hloop in Hpost. simpl in Hpost.
    destruct (Hpost) with (pre := pre) (ev := ev) (post := post)
                          (e := KeyError "msg") as [-> ->]; try done.
    by repeat constructor.
Qed.

End Escape.

Lemma failed_answer_without_msg_escapes_witness :
  let first := answer (VBool false) 5 0 true in
  [] = @nil event ∧
  (run bool_only reboot_task [first; first]
     (initial plain_context mute_host)).1 = Raise (KeyError "msg").
Proof.
  intros first.
  apply (failed_answer_without_msg_escapes bool_only reboot_task
           [first; first] plain_context mute_host _
           (run bool_only reboot_task [first; first]
              (initial plain_context mute_host)).2
           [EvCycle first] []
           (EvReboot (VInt 1200) (PluginResult (Some true) None))).
  - apply pairing.
  - evaluate.
  - reflexivity.
Defined.

(** ** A loop without a bound *)

Lemma merged_typed (r : pydict) (st : loop_state) :
  typed_state st → is_Some (r !! "changed") →
  integer_counts r = true → mapping_fields r = true →
  ∃ st', merged r st = Ok st' ∧ result st' = r ∧ typed_state st' ∧
         previously_errored st' = previously_errored st.
Proof.
  intros ([d Hd] & [f Hf] & [n Hn] & [i Hi]) [c Hc]
         [Hcf Hci]%andb_prop [Hmu Hmf]%andb_prop.
  unfold merged. rewrite Hd, Hf, Hn, Hi.
  rewrite (_merge_dict_mapping _ _ _ Hmu), (_merge_dict_mapping _ _ _ Hmf).
  rewrite (py_add_count _ _ _ Hcf), (py_add_count _ _ _ Hci).
  unfold py_index. rewrite Hc. simpl.
  eexists. split; [done|]. unfold typed_state; simpl. eauto 10.
Qed.

Lemma first_state_typed (r : pydict) (c : pyval) :
  integer_counts r = true → mapping_fields r = true →
  typed_state (first_state r c).
Proof.
  intros [Hcf Hci]%andb_prop [Hmu Hmf]%andb_prop.
  revert Hcf Hci Hmu Hmf.
  unfold integer_count, mapping_field, typed_state, first_state, py_get; simpl.
  destruct (r !! "updates") as [[]|], (r !! "filtered_updates") as [[]|],
    (r !! "found_update_count") as [[]|],
    (r !! "installed_update_count") as [[]|]; try done; eauto 10.
Qed.

Lemma busy_loop_is_stuck (reboot_timeout : pyval) (rs : list pydict)
    (st : loop_state) (w : world) :
  Forall busy_answer rs → busy_answer (result st) → typed_state st →
  reboot_loop reboot_timeout rs st w =
    (Stuck,
     World (context w) (reboot_script w) (reboot_count w)
           (trace w ++ (EvCycle <$> rs))).
Proof.
  intros Hrs. revert st w.
  induction Hrs as [|r rs Hr Hrs IH]; intros st w Hst Htyped;
    pose proof Hst as (_ & Hcond & Hfailed & Hdue & _);
    rewrite reboot_loop_unfold, Hcond, check_and_reboot_spec;
    unfold guard_breaks; fold (failed_cycle (result st)); rewrite Hfailed;
    simpl; rewrite reboot_if_required_spec; cbn [result set_previously_errored];
    rewrite Hdue.
  - rewrite app_nil_r. by destruct w.
  - pose proof Hr as (Hc & _ & _ & _ & Hints & Hmaps).
    destruct (merged_typed r (set_previously_errored false st))
      as (st' & -> & Hr' & Htyped' & _); try done.
    rewrite (IH st' (cycled r w)); [|by rewrite Hr'|done]. simpl.
    by rewrite <- app_assoc.
Qed.

Section NoBound.

Variable boolean : pyval → string + bool.

(** X15.  The loop has no bound of its own.  When reboots are asked for
    and every answer of the module reports updates found or installed,
    without a failure and without asking for a reboot, every one of these
    answers is followed by another run of the module: whatever the
    answers are and however many there are, the plugin has run the module
    on each and asks for one more. *)
Theorem loop_runs_as_long_as_updates_are_reported (t : task)
    (rs : list pydict) (w : world) :
  validated boolean t true →
  loop_enabled t true (context w) = true →
  rs ≠ [] →
  Forall busy_answer rs →
  run boolean t rs w =
    (Stuck,
     World (context w) (reboot_script w) (reboot_count w)
           (trace w ++ (EvCycle <$> rs))).
Proof.
  intros Hvalid Hloop Hne Hbusy.
  rewrite (run_validated boolean t true) by done.
  destruct Hbusy as [|r rs Hr Hrs]; [done|].
  pose proof Hr as ([c Hc] & _ & _ & _ & Hints & Hmaps).
  rewrite Hc, Hloop.
  rewrite (busy_loop_is_stuck (timeout_of t) rs); try done.
  - simpl. by rewrite <- app_assoc.
  - by apply first_state_typed.
Qed.

End NoBound.

Lemma loop_runs_as_long_as_updates_are_reported_witness :
  let answers := [ answer (VBool true) 1 1 false;
                   answer (VBool true) 2 1 false;
                   answer (VBool false) 3 0 false ] in
  run bool_only reboot_task answers (initial plain_context calm_host) =
    (Stuck, World plain_context calm_host 0 (EvCycle <$> answers)).
Proof.
  intros answers.
  apply (loop_runs_as_long_as_updates_are_reported bool_only reboot_task
           answers (initial plain_context calm_host)).
  - repeat split; try reflexivity. left. reflexivity.
  - reflexivity.
  - discriminate.
  - repeat constructor; try (vm_compute; reflexivity); by eexists.
Defined.

(** ** Two failures in a row, on well formed answers *)

Lemma well_formed_answer_parts (c : pydict) :
  well_formed_answer c = true →
  is_Some (c !! "changed") ∧ integer_counts c = true ∧
  mapping_fields c = true.
Proof.
  unfold well_formed_answer.
  intros [[Hc%bool_decide_eq_true_1 ?]%andb_prop ?]%andb_prop. done.
Qed.

Lemma surfaced_post_of_inv (st : loop_state) (w : world) :
  failure_inv st w → surfaced_post (Ok st) w.
Proof.
  intros (cs & Hcs & _ & Hno) k c1 c2 H1 H2 Hf1 Hf2 _ _.
  rewrite Hcs in *.
  destruct (repeated_failure_last cs (result st) k c1 c2)
    as (_ & -> & _); try done.
  by exists st.
Qed.

Lemma surfaced_post_vacuous (o : outcome loop_state) (w : world) :
  no_repeated_failure (cycles (trace w)) → surfaced_post o w.
Proof.
  intros Hno k c1 c2 H1 H2 Hf1 Hf2 _ _. exfalso.
  by apply (Hno k c1 c2 H1 H2).
Qed.

Lemma surfaced_inv_loop (reboot_timeout : pyval) (responses : list pydict)
    (st : loop_state) (w : world) :
  surfaced_inv st w →
  surfaced_post (reboot_loop reboot_timeout responses st w).1
                (reboot_loop reboot_timeout responses st w).2.
Proof.
  apply (reboot_loop_rule surfaced_inv surfaced_post reboot_timeout).
  - intros st' w' e [(cs & Hcs & _ & Hno) _] He k c1 c2 H1 H2 Hf1 Hf2 _ Hok.
    rewrite Hcs in *.
    destruct (repeated_failure_last cs (result st') k c1 c2)
      as (_ & -> & _); try done.
    by rewrite He in Hok.
  - intros st' w' [HI _] _. by apply surfaced_post_of_inv.
  - clear. intros st w [HI Htyped] _.
    rewrite check_and_reboot_spec. destruct (guard_breaks st) eqn:Hguard.
    { by apply surfaced_post_of_inv. }
    rewrite reboot_if_required_spec; simpl.
    destruct HI as (cs & Hcs & Hprev & Hno).
    assert (no_repeated_failure (cycles (trace w))) as Hno'.
    { rewrite Hcs. apply no_repeated_failure_snoc; [done|].
      rewrite <- Hprev. unfold guard_breaks in Hguard.
      by rewrite andb_comm. }
    assert (no_repeated_failure (cycles (trace (rebooted reboot_timeout w))))
      as Hno''.
    { unfold rebooted; simpl.
      by rewrite cycles_app, cycles_reboot_events, app_nil_r. }
    assert (∀ st1 w1 r,
              cycles (trace w1) = cycles (trace w) →
              result st1 = result st →
              previously_errored st1 = failed_cycle (result st) →
              (typed_state st → typed_state st1) →
              match merged r st1 with
              | Ok st2 => surfaced_inv st2 (cycled r w1)
              | Raise e => surfaced_post (Raise e) (cycled r w1)
              | Stuck => surfaced_post Stuck (cycled r w1)
              end) as Hmerge.
    { intros st1 w1 r Hw1 Hr1 Hp1 Ht1.
      assert (cycles (trace (cycled r w1)) = (cs ++ [result st]) ++ [r])
        as Hcs'.
      { unfold cycled; simpl. by rewrite cycles_app, Hw1, Hcs. }
      assert (Forall (λ c, well_formed_answer c = true)
                (cycles (trace (cycled r w1))) →
              ∃ st', merged r st1 = Ok st' ∧ typed_state st') as Hwf.
      { rewrite Hcs', <- Hcs.
        intros [Hall [Hr%well_formed_answer_parts _]%Forall_cons]%Forall_app.
        destruct Hr as (Hc & Hints & Hmaps).
        destruct (merged_typed r st1) as (st' & Hm & _ & Ht' & _); eauto. }
      rewrite Hcs in Hno'.
      destruct (merged r st1) as [st2|e|] eqn:Hm.
      - split.
        + apply merged_Ok in Hm
            as (c & u & f & n & i & _ & _ & _ & _ & _ & ->).
          exists (cs ++ [result st]). rewrite Hcs', last_snoc. simpl.
          by rewrite Hp1.
        + intros Hall. destruct (Hwf Hall) as (st' & [= ->] & Ht'). done.
      - intros k c1 c2 H1 H2 Hf1 Hf2 Hall _.
        by destruct (Hwf Hall) as (st' & ? & _).
      - by apply merged_not_Stuck in Hm. }
    destruct (reboot_due (result st)).
    + destruct (reboot_outcome _) as [[]|e|]; [|destruct e; simpl|];
        try (by apply surfaced_post_vacuous).
      split; [by apply surfaced_post_vacuous|]. intros r.
      apply Hmerge; try done. unfold rebooted; simpl.
      by rewrite cycles_app, cycles_reboot_events, app_nil_r.
    + split; [by apply surfaced_post_vacuous|]. intros r.
      by apply Hmerge.
Qed.

Section Surfaced.

Variable boolean : pyval → string + bool.

(** X16.  In every run of the plugin, from a world in which nothing has
    happened, whose answers have [changed] and counts and mappings of the
    expected kinds: if two runs of the module in a row report a failure,
    and the second answer has the fields the condition of the loop reads,
    then they are the last two runs made and [run] returns a result with
    the [failed] and [msg] of the second one.  In an iteration whose
    result is not a failure the check for a repeated failure lets the
    iteration go on with the mark of a previous failure cleared; on a
    failure without the mark it goes on with the mark set; on a failure
    with the mark it leaves the loop with nothing changed. *)
Theorem repeated_failure_is_surfaced :
  (∀ (t : task) (responses : list pydict) (pc : play_context)
     (script : nat → reboot_env) (o : outcome pydict) (w' : world)
     (k : nat) (c1 c2 : pydict),
     run boolean t responses (initial pc script) = (o, w') →
     cycles (trace w') !! k = Some c1 →
     cycles (trace w') !! S k = Some c2 →
     failed_cycle c1 = true → failed_cycle c2 = true →
     Forall (λ c, well_formed_answer c = true) (cycles (trace w')) →
     is_Ok (loop_condition c2) = true →
     length (cycles (trace w')) = S (S k) ∧
     ∃ res, o = Ok res ∧
            res !! "failed" = c2 !! "failed" ∧ res !! "msg" = c2 !! "msg")
  ∧
  (∀ (reboot_timeout : pyval) (st : loop_state) (w : world),
     (failed_cycle (result st) = false →
      check_and_reboot reboot_timeout st w =
        reboot_if_required reboot_timeout
          (set_previously_errored false st) w) ∧
     (failed_cycle (result st) = true → previously_errored st = false →
      check_and_reboot reboot_timeout st w =
        reboot_if_required reboot_timeout
          (set_previously_errored true st) w) ∧
     (failed_cycle (result st) = true → previously_errored st = true →
      check_and_reboot reboot_timeout st w = (Ok (Break st), w))).
Proof.
  split.
  - intros t responses pc script o w' k c1 c2 Hrun H1 H2 Hf1 Hf2 Hall Hok.
    destruct (run_inv boolean _ _ _ _ _ Hrun)
      as [[-> _]|(r & rs & -> & [(_ & ? & ->)|(c & Hc & [[? ->]|
           (Hle & o1 & Hloop & ?)])])]; simplify_eq/=;
      try (by rewrite lookup_nil in H1 || rewrite lookup_nil in H2).
    assert (failure_inv (first_state r c) (cycled r (initial pc script)))
      as Hinit.
    { exists []. split; [done|]. split; [done|].
      intros ? ? ? Hnil. by rewrite lookup_nil in Hnil. }
    pose proof (failure_inv_loop (timeout_of t) rs (first_state r c)
                  (cycled r (initial pc script)) Hinit) as Hlen.
    pose proof (surfaced_inv_loop (timeout_of t) rs (first_state r c)
                  (cycled r (initial pc script))) as Hpost.
    rewrite Hloop in Hlen, Hpost. simpl in Hlen, Hpost.
    destruct (Hlen k c1 c2) as (Hlength & _); try done.
    split; [done|].
    destruct (Hpost) with (k := k) (c1 := c1) (c2 := c2)
      as (st' & -> & Hres); try done.
    { split; [done|]. simpl.
      intros [(_ & Hints & Hmaps)%well_formed_answer_parts _]%Forall_cons.
      by apply first_state_typed. }
    exists (aggregate (async_val t) st'). split; [done|].
    destruct (aggregate_failed_msg (async_val t) st') as [-> ->].
    by rewrite Hres.
  - intros timeout st w. unfold failed_cycle.
    repeat split; unfold check_and_reboot; intros Hf; rewrite Hf; try done;
      by intros ->.
Qed.

End Surfaced.

Lemma repeated_failure_is_surfaced_witness :
  let end_ := run bool_only reboot_task failing_answers
                (initial plain_context calm_host) in
  let second := failure "second" (answer (VBool false) 1 0 false) in
  let st := set_previously_errored true
              (first_state (answer (VBool false) 1 0 false) (VBool false)) in
  (length (cycles (trace end_.2)) = 2 ∧
   ∃ res, end_.1 = Ok res ∧
          res !! "failed" = second !! "failed" ∧
          res !! "msg" = second !! "msg") ∧
  check_and_reboot (VInt 1200) st (initial plain_context calm_host) =
    reboot_if_required (VInt 1200) (set_previously_errored false st)
      (initial plain_context calm_host).
Proof.
  intros end_ second st. split.
  - apply (proj1 (repeated_failure_is_surfaced bool_only) reboot_task
             failing_answers plain_context calm_host end_.1 end_.2
             0 (failure "first" (answer (VBool false) 1 0 false)) second
             (pairing end_)).
    + evaluate.
    + evaluate.
    + vm_compute. reflexivity.
    + vm_compute. reflexivity.
    + evaluate.
    + vm_compute. reflexivity.
  - apply (proj2 (repeated_failure_is_surfaced bool_only) (VInt 1200) st
             (initial plain_context calm_host)).
    vm_compute. reflexivity.
Defined.
